(** * The churn-model encoder: [encode_query] and [entry_to_record]

    A shallow embedding of [encoder.py].  The two exported functions are
    translated statement by statement; the Python builtins they call
    ([str.lower], [re.sub] with a character class, [str.split], [str.join],
    the [in] test on strings, [hashlib.md5], [int(_, 16)], the [08d] format)
    are written out as executable functions.

    Modelling scope.  A Python [str] is a [string] whose characters are the
    code points U+0000..U+00FF; the character classes of [str.lower], [\w]
    and [\s] are the ones Python uses on that range.  Code points above
    U+00FF are outside the model.  A Python value read from a JSON entry is
    a [pyval]; exceptions are the [Raise] results of the [result] monad. *)

From Stdlib Require Import ZArith QArith Ascii List Lia Bool.
From Stdlib Require String.
From stdpp Require Import base gmap strings.

(** ** Python values and exceptions *)

Inductive exn := AttributeError | TypeError | ValueError.

Inductive result (A : Type) :=
| Ok (a : A)
| Raise (e : exn).
Arguments Ok {A} a.
Arguments Raise {A} e.

Global Instance result_ret : MRet result := fun _ a => Ok a.
Global Instance result_bind : MBind result := fun _ _ f m =>
  match m with
  | Ok a => f a
  | Raise e => Raise e
  end.

(** [POther shown] stands for a value of any other type (a float, a nested
    object): the code can only observe that it is not a list, that it has
    no [lower] method, and the text [shown] that [str] gives for it. *)
#[local] Set Warnings "-register-all".
Inductive pyval :=
| PNone
| PBool (b : bool)
| PInt (n : Z)
| PStr (s : string)
| PList (items : list pyval)
| POther (shown : string).

(** ** Characters and strings *)

Module Py.
Local Open Scope Z_scope.

Definition ord (c : ascii) : Z := Z.of_N (N_of_ascii c).
Definition chr (z : Z) : ascii := ascii_of_N (Z.to_N z).

Definition between (lo hi : Z) (c : ascii) : bool :=
  (lo <=? ord c) && (ord c <=? hi).

(** [str.isspace], which is also what [\s] and [str.split()] use. *)
Definition isspace (c : ascii) : bool :=
  between 9 13 c || between 28 32 c || (ord c =? 133) || (ord c =? 160).

(** [str.isalnum] on U+0000..U+00FF: letters, decimal digits and the
    numeric characters of Latin-1. *)
Definition isalnum (c : ascii) : bool :=
  between 48 57 c || between 65 90 c || between 97 122 c
  || (ord c =? 170) || (ord c =? 178) || (ord c =? 179) || (ord c =? 181)
  || (ord c =? 185) || (ord c =? 186) || between 188 190 c
  || between 192 214 c || between 216 246 c || between 248 255 c.

(** The class [\w]. *)
Definition isword (c : ascii) : bool := isalnum c || (ord c =? 95).

Definition lower_char (c : ascii) : ascii :=
  if between 65 90 c || between 192 214 c || between 216 222 c
  then chr (ord c + 32) else c.

Fixpoint str_map (f : ascii -> ascii) (s : string) : string :=
  match s with
  | EmptyString => EmptyString
  | String c s' => String (f c) (str_map f s')
  end.

Fixpoint str_filter (p : ascii -> bool) (s : string) : string :=
  match s with
  | EmptyString => EmptyString
  | String c s' => if p c then String c (str_filter p s') else str_filter p s'
  end.

(** [s.lower()] *)
Definition lower (s : string) : string := str_map lower_char s.

(** The words of [split_from cur s] are those of [cur ++ s], where [cur] is
    the word being read. *)
Definition flush (cur : string) : list string :=
  match cur with
  | EmptyString => []
  | _ => [cur]
  end.

Fixpoint split_from (cur s : string) : list string :=
  match s with
  | EmptyString => flush cur
  | String c s' =>
      if isspace c then flush cur ++ split_from EmptyString s'
      else split_from (cur +:+ String c EmptyString) s'
  end.

(** [s.split()] *)
Definition split (s : string) : list string := split_from EmptyString s.

(** [sep.join(l)] on a list of strings *)
Fixpoint join (sep : string) (l : list string) : string :=
  match l with
  | [] => EmptyString
  | [w] => w
  | w :: ws => w +:+ sep +:+ join sep ws
  end.

Fixpoint startswith (s t : string) : bool :=
  match t, s with
  | EmptyString, _ => true
  | String _ _, EmptyString => false
  | String b t', String a s' => if Ascii.eqb a b then startswith s' t' else false
  end.

(** [t in s] on strings *)
Fixpoint contains (t s : string) : bool :=
  startswith s t ||
  match s with
  | EmptyString => false
  | String _ s' => contains t s'
  end.

(** [s[:n]] *)
Fixpoint str_take (n : nat) (s : string) : string :=
  match n, s with
  | S n', String c s' => String c (str_take n' s')
  | _, _ => EmptyString
  end.

(** [s.encode()]: UTF-8 *)
Fixpoint encode (s : string) : list Z :=
  match s with
  | EmptyString => []
  | String c s' =>
      (if ord c <? 128 then [ord c]
       else [192 + ord c / 64; 128 + ord c mod 64]) ++ encode s'
  end.

(** Decimal digits of a non-negative integer, most significant first. *)
Fixpoint dec_digits (fuel : nat) (n : Z) : string :=
  match fuel with
  | O => EmptyString
  | S fuel' =>
      if n <? 10 then String (chr (48 + n)) EmptyString
      else dec_digits fuel' (n / 10) +:+ String (chr (48 + n mod 10)) EmptyString
  end.

Definition str_nat (n : Z) : string := dec_digits (S (Z.to_nat (Z.log2 n))) n.

(** [str(n)] on an integer *)
Definition str_int (n : Z) : string :=
  if n <? 0 then String "-" (str_nat (- n)) else str_nat n.

Fixpoint zeros (k : nat) : string :=
  match k with
  | O => EmptyString
  | S k' => String "0" (zeros k')
  end.

Definition zfill (width : nat) (s : string) : string :=
  zeros (width - String.length s) +:+ s.

(** [f"{n:08d}"]: the sign first, then zeros up to a total width of 8. *)
Definition format_08d (n : Z) : string :=
  if n <? 0 then String "-" (zfill 7 (str_nat (- n))) else zfill 8 (str_nat n).

Definition hex_value (c : ascii) : option Z :=
  if between 48 57 c then Some (ord c - 48)
  else if between 97 102 c then Some (ord c - 87)
  else if between 65 70 c then Some (ord c - 55)
  else None.

Fixpoint int16_from (acc : Z) (s : string) : result Z :=
  match s with
  | EmptyString => Ok acc
  | String c s' =>
      match hex_value c with
      | Some d => int16_from (16 * acc + d) s'
      | None => Raise ValueError
      end
  end.

(** [int(s, 16)] on a string of hexadecimal digits; anything else, and the
    empty string, is a [ValueError]. *)
Definition int_base16 (s : string) : result Z :=
  match s with
  | EmptyString => Raise ValueError
  | _ => int16_from 0 s
  end.

End Py.

(** ** MD5 (RFC 1321), on bytes as integers in 0..255 *)

Module MD5.
Local Open Scope Z_scope.

Definition w32 (x : Z) : Z := x mod 2 ^ 32.
Definition not32 (x : Z) : Z := Z.lxor x 0xffffffff.
Definition rotl (x c : Z) : Z :=
  w32 (Z.lor (Z.shiftl x c) (Z.shiftr x (32 - c))).

Definition shifts : list Z :=
  [7; 12; 17; 22; 7; 12; 17; 22; 7; 12; 17; 22; 7; 12; 17; 22;
   5; 9; 14; 20; 5; 9; 14; 20; 5; 9; 14; 20; 5; 9; 14; 20;
   4; 11; 16; 23; 4; 11; 16; 23; 4; 11; 16; 23; 4; 11; 16; 23;
   6; 10; 15; 21; 6; 10; 15; 21; 6; 10; 15; 21; 6; 10; 15; 21].

Definition sines : list Z :=
  [0xd76aa478; 0xe8c7b756; 0x242070db; 0xc1bdceee;
   0xf57c0faf; 0x4787c62a; 0xa8304613; 0xfd469501;
   0x698098d8; 0x8b44f7af; 0xffff5bb1; 0x895cd7be;
   0x6b901122; 0xfd987193; 0xa679438e; 0x49b40821;
   0xf61e2562; 0xc040b340; 0x265e5a51; 0xe9b6c7aa;
   0xd62f105d; 0x02441453; 0xd8a1e681; 0xe7d3fbc8;
   0x21e1cde6; 0xc33707d6; 0xf4d50d87; 0x455a14ed;
   0xa9e3e905; 0xfcefa3f8; 0x676f02d9; 0x8d2a4c8a;
   0xfffa3942; 0x8771f681; 0x6d9d6122; 0xfde5380c;
   0xa4beea44; 0x4bdecfa9; 0xf6bb4b60; 0xbebfbc70;
   0x289b7ec6; 0xeaa127fa; 0xd4ef3085; 0x04881d05;
   0xd9d4d039; 0xe6db99e5; 0x1fa27cf8; 0xc4ac5665;
   0xf4292244; 0x432aff97; 0xab9423a7; 0xfc93a039;
   0x655b59c3; 0x8f0ccc92; 0xffeff47d; 0x85845dd1;
   0x6fa87e4f; 0xfe2ce6e0; 0xa3014314; 0x4e0811a1;
   0xf7537e82; 0xbd3af235; 0x2ad7d2bb; 0xeb86d391].

Definition at_index (l : list Z) (i : Z) : Z := nth (Z.to_nat i) l 0.

Definition state : Type := Z * Z * Z * Z.

Definition init : state := (0x67452301, 0xefcdab89, 0x98badcfe, 0x10325476).

(** The mixing function of operation [i] and the index of the message word
    it reads. *)
Definition mix (i b c d : Z) : Z * Z :=
  if i <? 16 then (Z.lor (Z.land b c) (Z.land (not32 b) d), i)
  else if i <? 32 then (Z.lor (Z.land d b) (Z.land (not32 d) c), (5 * i + 1) mod 16)
  else if i <? 48 then (Z.lxor (Z.lxor b c) d, (3 * i + 5) mod 16)
  else (Z.lxor c (Z.lor b (not32 d)), (7 * i) mod 16).

Definition step (m : list Z) (st : state) (i : Z) : state :=
  let '(a, b, c, d) := st in
  let '(f, g) := mix i b c d in
  let f' := w32 (f + a + at_index sines i + at_index m g) in
  (d, w32 (b + rotl f' (at_index shifts i)), b, c).

(** Little-endian bytes and words. *)
Fixpoint le_bytes (n : nat) (x : Z) : list Z :=
  match n with
  | O => []
  | S n' => x mod 256 :: le_bytes n' (x / 256)
  end.

Fixpoint le_value (bs : list Z) : Z :=
  match bs with
  | [] => 0
  | b :: bs' => b + 256 * le_value bs'
  end.

Fixpoint groups (fuel : nat) (k : nat) (l : list Z) : list (list Z) :=
  match fuel with
  | O => []
  | S fuel' =>
      match l with
      | [] => []
      | _ => take k l :: groups fuel' k (drop k l)
      end
  end.

Definition chunks (k : nat) (l : list Z) : list (list Z) := groups (length l) k l.

Definition compress (h : state) (chunk : list Z) : state :=
  let m := map le_value (chunks 4 chunk) in
  let '(a0, b0, c0, d0) := h in
  let '(a, b, c, d) := fold_left (step m) (seqZ 0 64) h in
  (w32 (a0 + a), w32 (b0 + b), w32 (c0 + c), w32 (d0 + d)).

Definition pad (msg : list Z) : list Z :=
  let len := Z.of_nat (length msg) in
  msg ++ [0x80] ++ repeat 0 (Z.to_nat ((55 - len) mod 64))
      ++ le_bytes 8 ((8 * len) mod 2 ^ 64).

(** [hashlib.md5(msg).digest()] *)
Definition digest (msg : list Z) : list Z :=
  let '(a, b, c, d) := fold_left compress (chunks 64 (pad msg)) init in
  le_bytes 4 a ++ le_bytes 4 b ++ le_bytes 4 c ++ le_bytes 4 d.

Definition hex_digit (n : Z) : ascii :=
  if n <? 10 then Py.chr (48 + n) else Py.chr (87 + n).

Fixpoint hex_of_bytes (bs : list Z) : string :=
  match bs with
  | [] => EmptyString
  | b :: bs' => String (hex_digit (b / 16)) (String (hex_digit (b mod 16)) (hex_of_bytes bs'))
  end.

(** [hashlib.md5(msg).hexdigest()] *)
Definition hexdigest (msg : list Z) : string := hex_of_bytes (digest msg).

End MD5.

(** ** The lookup tables of the encoder *)

Definition usage_band_items : list (string * string) :=
    [("none", "inactive"); ("zero", "inactive"); ("no", "inactive"); ("inactive", "inactive");
     ("dropping", "declining"); ("declining", "declining"); ("decreasing", "declining");
     ("fewer", "declining"); ("less", "declining"); ("reduced", "declining"); ("low", "declining");
     ("steady", "stable"); ("stable", "stable"); ("normal", "stable"); ("average", "stable");
     ("increasing", "growing"); ("growing", "growing"); ("more", "growing"); ("high", "growing");
     ("active", "growing"); ("frequent", "growing")].

Definition _USAGE_BANDS : gmap string string := list_to_map usage_band_items.

Definition churn_driver_items : list (string * string) :=
    [("login", "low_usage"); ("usage", "low_usage"); ("logins", "low_usage");
     ("session", "low_usage"); ("activity", "low_usage");
     ("support", "support_burden"); ("ticket", "support_burden"); ("case", "support_burden");
     ("cases", "support_burden"); ("escalation", "support_burden");
     ("defect", "defect_frustration"); ("bug", "defect_frustration"); ("crash", "defect_frustration");
     ("error", "defect_frustration"); ("broken", "defect_frustration"); ("defects", "defect_frustration");
     ("feature", "low_adoption"); ("adoption", "low_adoption"); ("onboard", "onboarding_stall");
     ("billing", "billing_friction"); ("payment", "billing_friction"); ("invoice", "billing_friction");
     ("price", "billing_friction"); ("cost", "billing_friction")].

Definition _CHURN_DRIVERS : gmap string string := list_to_map churn_driver_items.

(** A dict iterates in insertion order, and [_infer_risk] relies on it: the
    table is kept as the ordered list of its items. *)
Definition _RISK_KEYWORDS : list (string * list string) :=
  [("high", ["churn"; "cancel"; "leaving"; "at risk"; "critical"; "red"; "danger";
             "inactive"; "zero logins"; "no activity"; "escalat"]);
   ("medium", ["declining"; "dropping"; "fewer"; "reduced"; "warning"; "yellow";
               "slowing"; "less active"; "some risk"]);
   ("low", ["stable"; "growing"; "healthy"; "green"; "active"; "engaged";
            "retained"; "happy"; "renew"])].

Definition _STOP_WORDS : gset string :=
  list_to_set
    ["how"; "do"; "i"; "a"; "the"; "to"; "is"; "what"; "my"; "an";
     "can"; "does"; "it"; "in"; "on"; "for"; "with"; "me"; "about";
     "are"; "which"; "who"; "will"; "their"; "this"; "that"; "of"].

(** ** NL query helpers *)

(** [any(t in text for t in triggers)] *)
Definition any_in (triggers : list string) (text : string) : bool :=
  existsb (fun t => Py.contains t text) triggers.

Fixpoint first_level (items : list (string * list string)) (text : string) : option string :=
  match items with
  | [] => None
  | (level, triggers) :: rest =>
      if any_in triggers text then Some level else first_level rest text
  end.

Definition _infer_risk (words : list string) : string :=
  let text := Py.join " " words in
  match first_level _RISK_KEYWORDS text with
  | Some level => level
  | None => "medium"
  end.

(** [re.sub(r"[^a-z]", "", w)] *)
Definition only_az (w : string) : string := Py.str_filter (Py.between 97 122) w.

Fixpoint first_mapped (table : gmap string string) (fallback : string)
    (words : list string) : string :=
  match words with
  | [] => fallback
  | w :: rest =>
      let clean := only_az w in
      match table !! clean with
      | Some v => v
      | None => first_mapped table fallback rest
      end
  end.

Definition _infer_driver (words : list string) : string :=
  first_mapped _CHURN_DRIVERS "low_usage" words.

Definition _infer_usage_band (words : list string) : string :=
  first_mapped _USAGE_BANDS "stable" words.

(** ** encode_query *)

Record Attributes := {
  customer_id : pyval;
  risk_level : pyval;
  churn_driver : pyval;
  usage_band : pyval;
  keywords : pyval;
  logins : pyval;
  support_cases : pyval;
  defects : pyval;
  feature_adoption : pyval
}.

Record Query := {
  name : string;
  attributes : Attributes
}.

(** [re.sub(r"[^\w\s]", "", query.lower()).split()] *)
Definition tokens (query : string) : list string :=
  let cleaned := Py.str_filter (fun c => Py.isword c || Py.isspace c) (Py.lower query) in
  Py.split cleaned.

(** [int(hashlib.md5(query.encode()).hexdigest()[:8], 16)] *)
Definition stable_id (query : string) : result Z :=
  Py.int_base16 (Py.str_take 8 (MD5.hexdigest (Py.encode query))).

Definition encode_query (query : string) : result Query :=
  let words := tokens query in
  let risk := _infer_risk words in
  let driver := _infer_driver words in
  let usage_band := _infer_usage_band words in
  let keywords := Py.join " " (filter (fun w => w ∉ _STOP_WORDS) words) in
  id ← stable_id query;
  mret {|
    name := "query_" +:+ Py.format_08d id;
    attributes := {|
      customer_id := PStr "";
      risk_level := PStr risk;
      churn_driver := PStr driver;
      usage_band := PStr usage_band;
      keywords := PStr keywords;
      logins := PInt 50;
      support_cases := PInt 2;
      defects := PInt 1;
      feature_adoption := PInt 50
    |}
  |}.

(** ** entry_to_record *)

Record Metadata := {
  response : pyval;
  meta_risk_level : pyval;
  meta_churn_driver : pyval;
  recommended_action : pyval;
  original_question : pyval
}.

Record EncodedRecord := {
  concept_text : pyval;
  record_attributes : Attributes;
  metadata : Metadata
}.

(** [entry.get(key, dflt)] *)
Definition get (entry : gmap string pyval) (key : string) (dflt : pyval) : pyval :=
  default dflt (entry !! key).

(** [v.lower()]: of the values an entry can hold, only a str has the method. *)
Definition method_lower (v : pyval) : result string :=
  match v with
  | PStr s => Ok (Py.lower s)
  | _ => Raise AttributeError
  end.

(** [" ".join(items)]: every item has to be a str. *)
Fixpoint expect_strs (items : list pyval) : result (list string) :=
  match items with
  | [] => Ok []
  | PStr s :: rest => ws ← expect_strs rest; mret (s :: ws)
  | _ :: _ => Raise TypeError
  end.

(** [" ".join(kw_list) if isinstance(kw_list, list) else str(kw_list)] *)
Definition keywords_text (kw_list : pyval) : result string :=
  match kw_list with
  | PList items => ws ← expect_strs items; mret (Py.join " " ws)
  | PNone => Ok "None"
  | PBool b => Ok (if b then "True" else "False")
  | PInt n => Ok (Py.str_int n)
  | PStr s => Ok s
  | POther shown => Ok shown
  end.

(** [re.sub(r"[^a-z0-9]+", "_", question)]: [in_run] tells that the
    previous character was already replaced. *)
Definition slug_char (c : ascii) : bool := Py.between 97 122 c || Py.between 48 57 c.

Fixpoint collapse_runs (in_run : bool) (s : string) : string :=
  match s with
  | EmptyString => EmptyString
  | String c s' =>
      if slug_char c then String c (collapse_runs false s')
      else if in_run then collapse_runs true s'
      else String "_" (collapse_runs true s')
  end.

Fixpoint lstrip (c : ascii) (s : string) : string :=
  match s with
  | EmptyString => EmptyString
  | String a s' => if Ascii.eqb a c then lstrip c s' else s
  end.

(** [s.strip("_")] *)
Definition strip_underscores (s : string) : string :=
  String.rev (lstrip "_" (String.rev (lstrip "_" s))).

Definition make_slug (question : string) : string :=
  Py.str_take 40 (strip_underscores (collapse_runs false question)).

Definition entry_to_record (entry : gmap string pyval) : result EncodedRecord :=
  question ← method_lower (get entry "question" (PStr ""));
  let customer_id := get entry "customer_id" (PStr "") in
  let risk := get entry "risk_level" (PStr "medium") in
  let driver := get entry "churn_driver" (PStr "low_usage") in
  let usage_band := get entry "usage_band" (PStr "stable") in
  let kw_list := get entry "keywords" (PList []) in
  kw_str ← keywords_text kw_list;
  let slug := make_slug question in
  mret {|
    concept_text := PStr question;
    record_attributes := {|
      customer_id := customer_id;
      risk_level := risk;
      churn_driver := driver;
      usage_band := usage_band;
      keywords := PStr kw_str;
      logins := get entry "logins" (PInt 50);
      support_cases := get entry "support_cases" (PInt 2);
      defects := get entry "defects" (PInt 1);
      feature_adoption := get entry "feature_adoption" (PInt 50)
    |};
    metadata := {|
      response := get entry "response" (PStr "");
      meta_risk_level := risk;
      meta_churn_driver := driver;
      recommended_action := get entry "recommended_action" (PStr "");
      original_question := PStr question
    |}
  |}.

(** [returns m P]: the call returns, without raising, a value that
    satisfies [P]. *)
Definition returns {A : Type} (m : result A) (P : A -> Prop) : Prop :=
  match m with
  | Ok a => P a
  | Raise _ => False
  end.


(** ** The best-match scan of the similarity tests *)

(** [_find_best_match] of [test_similarity.py].  [similarity c p] stands
    for [similarity.compute(c, p).score]; a score is a finite float, kept
    here as the rational number it denotes (a NaN score is outside the
    model).  [best_match_from] is the loop, from the values that
    [best_meta] and [best_score] have when it reaches the patterns left. *)
Fixpoint best_match_from {glyph meta : Type} (similarity : glyph -> glyph -> Q)
    (customer_glyph : glyph) (pattern_glyphs : list (glyph * meta))
    (best_meta : option meta) (best_score : Q) : option meta * Q :=
  match pattern_glyphs with
  | [] => (best_meta, best_score)
  | (pattern_glyph, meta) :: rest =>
      let score := similarity customer_glyph pattern_glyph in
      if Qlt_le_dec best_score score
      then best_match_from similarity customer_glyph rest (Some meta) score
      else best_match_from similarity customer_glyph rest best_meta best_score
  end.

Definition _find_best_match {glyph meta : Type} (customer_glyph : glyph)
    (pattern_glyphs : list (glyph * meta)) (similarity : glyph -> glyph -> Q)
    : option meta * Q :=
  best_match_from similarity customer_glyph pattern_glyphs None (-1 # 1)%Q.

(** ** Vocabulary of the statements *)

Fixpoint str_all (p : ascii -> bool) (s : string) : bool :=
  match s with
  | EmptyString => true
  | String c s' => p c && str_all p s'
  end.

(** A non-empty word of letters a-z. *)
Definition az_word (w : string) : bool :=
  match w with
  | EmptyString => false
  | _ => str_all (Py.between 97 122) w
  end.

(** The characters that normalisation leaves alone: a-z and the space. *)
Definition az_or_blank (c : ascii) : bool := Py.between 97 122 c || Ascii.eqb c " ".

Definition is_digit (c : ascii) : bool := Py.between 48 57 c.

(** The number that a string of decimal digits denotes. *)
Fixpoint dec_value_from (acc : Z) (s : string) : Z :=
  match s with
  | EmptyString => acc
  | String c s' => dec_value_from (10 * acc + (Py.ord c - 48)) s'
  end.

Definition dec_value (s : string) : Z := dec_value_from 0 s.

(** Linear arithmetic with division and remainder by constants. *)
Ltac div_lia := Z.to_euclidean_division_equations; lia.

(** A number with [k + 1] decimal digits. *)
Definition digits_range (k : nat) (n : Z) : Prop :=
  match k with
  | O => (0 <= n < 10)%Z
  | S _ => (10 ^ Z.of_nat k <= n < 10 ^ Z.of_nat (S k))%Z
  end.

(** The trigger list of a risk level in [_RISK_KEYWORDS]. *)
Definition triggers (level : string) : list string :=
  match List.find (fun item => String.eqb (fst item) level) _RISK_KEYWORDS with
  | Some (_, ts) => ts
  | None => []
  end.

(** The name as the specification words it: the prefix and exactly eight
    decimal digits. *)
Definition eight_digit_name (n : string) : Prop :=
  exists d, n = "query_" +:+ d /\ String.length d = 8 /\ str_all is_digit d = true.


(** What [split] produces: non-empty words without white space. *)
Definition is_token (w : string) : bool :=
  match w with
  | EmptyString => false
  | _ => str_all (fun c => negb (Py.isspace c)) w
  end.

Definition is_str (v : pyval) : bool :=
  match v with
  | PStr _ => true
  | _ => false
  end.




(** [re.sub(r"[^\\w\\s]", "", query.lower())], the variable [cleaned]. *)
Definition cleaned (query : string) : string :=
  Py.str_filter (fun c => Py.isword c || Py.isspace c) (Py.lower query).

(** A word character that [lower] leaves alone. *)
Definition lowered_word_char (c : ascii) : bool :=
  Py.isword c && Ascii.eqb (Py.lower_char c) c.

(** Some word of the list has letters a-z that form a key of the table. *)
Definition names_key (table : gmap string string) (words : list string) : bool :=
  existsb (fun w => bool_decide (is_Some (table !! only_az w))) words.

(** The keys that [entry_to_record] reads. *)
Definition entry_keys : list string :=
  ["question"; "customer_id"; "risk_level"; "churn_driver"; "usage_band";
   "keywords"; "logins"; "support_cases"; "defects"; "feature_adoption";
   "response"; "recommended_action"].

(** A character of a slug: a-z, 0-9 or the underscore. *)
Definition slug_or_underscore (c : ascii) : bool := slug_char c || Ascii.eqb c "_".

(** The dict that an attribute record stands for, as an entry. *)
Definition as_entry (a : Attributes) : gmap string pyval :=
  list_to_map
    [("customer_id", customer_id a); ("risk_level", risk_level a);
     ("churn_driver", churn_driver a); ("usage_band", usage_band a);
     ("keywords", keywords a); ("logins", logins a);
     ("support_cases", support_cases a); ("defects", defects a);
     ("feature_adoption", feature_adoption a)].

(** * Checks of the model against known values *)

Example md5_empty : MD5.hexdigest (Py.encode "") = "d41d8cd98f00b204e9800998ecf8427e".
Proof. vm_compute. reflexivity. Qed.

Example md5_abc : MD5.hexdigest (Py.encode "abc") = "900150983cd24fb0d6963f7d28e17f72".
Proof. vm_compute. reflexivity. Qed.

Example md5_two_chunks :
  MD5.hexdigest (Py.encode "xxxxxxxxxxxxxxxxxxxxxxxxxxxxxxxxxxxxxxxxxxxxxxxxxxxxxxxxxxxxxxxxxxxxxx")
  = "7d56c0f83fd1e320d60ea2f13dfdeedd".
Proof. vm_compute. reflexivity. Qed.

(** No key is written twice in the dict literals, so that the maps hold
    every item as written. *)
Lemma table_keys_distinct :
  NoDup usage_band_items.*1 /\ NoDup churn_driver_items.*1.
Proof. split; apply (bool_decide_unpack _); vm_compute; exact I. Qed.

(** * Facts about the string primitives *)

Section StringFacts.

Lemma app_nil_l (s : string) : "" +:+ s = s.
Proof. reflexivity. Qed.

Lemma app_cons (c : ascii) (s t : string) : String c s +:+ t = String c (s +:+ t).
Proof. reflexivity. Qed.

Lemma app_nil_r (s : string) : s +:+ "" = s.
Proof. induction s as [|c s IH]; [done|]. by rewrite app_cons, IH. Qed.

Lemma app_assoc (s t u : string) : (s +:+ t) +:+ u = s +:+ t +:+ u.
Proof. induction s as [|c s IH]; [done|]. by rewrite !app_cons, IH. Qed.

Lemma app_length (s t : string) :
  String.length (s +:+ t) = (String.length s + String.length t)%nat.
Proof. induction s as [|c s IH]; [done|]. rewrite app_cons. simpl. by rewrite IH. Qed.

Lemma app_eq_nil (s t : string) : s +:+ t = "" -> s = "" /\ t = "".
Proof. destruct s; [done|]. by rewrite app_cons. Qed.

Lemma str_map_app (f : ascii -> ascii) (s t : string) :
  Py.str_map f (s +:+ t) = Py.str_map f s +:+ Py.str_map f t.
Proof. induction s as [|c s IH]; [done|]. rewrite !app_cons. simpl. by rewrite IH. Qed.

Lemma str_filter_app (p : ascii -> bool) (s t : string) :
  Py.str_filter p (s +:+ t) = Py.str_filter p s +:+ Py.str_filter p t.
Proof.
  induction s as [|c s IH]; [done|]. rewrite app_cons. simpl.
  destruct (p c); by rewrite ?app_cons, IH.
Qed.

Lemma startswith_app (t b : string) : Py.startswith (t +:+ b) t = true.
Proof.
  induction t as [|c t IH]; [by destruct b|].
  rewrite app_cons. simpl. by rewrite Ascii.eqb_refl.
Qed.

Lemma startswith_inv (s t : string) :
  Py.startswith s t = true -> exists b, s = t +:+ b.
Proof.
  revert s. induction t as [|c t IH]; intros s H.
  - by exists s.
  - destruct s as [|a s]; [done|]. simpl in H.
    destruct (Ascii.eqb a c) eqn:E; [|done].
    apply Ascii.eqb_eq in E as ->.
    destruct (IH _ H) as [b ->]. by exists b.
Qed.

Lemma contains_unfold (t s : string) :
  Py.contains t s =
  Py.startswith s t || match s with "" => false | String _ s' => Py.contains t s' end.
Proof. by destruct s. Qed.

(** [t in s] holds exactly when [t] occurs in [s]. *)
Lemma contains_iff (t s : string) :
  Py.contains t s = true <-> exists a b, s = a +:+ t +:+ b.
Proof.
  split.
  - induction s as [|c s IH]; rewrite contains_unfold; intros H.
    + rewrite orb_false_r in H. apply startswith_inv in H as [b Hb].
      by exists "", b.
    + apply orb_true_iff in H as [H|H].
      * apply startswith_inv in H as [b Hb]. by exists "", b.
      * destruct (IH H) as (a & b & ->). by exists (String c a), b.
  - intros (a & b & ->). induction a as [|c a IH].
    + rewrite app_nil_l, contains_unfold, startswith_app. done.
    + rewrite app_cons, contains_unfold, IH. apply orb_true_r.
Qed.

Lemma contains_app (t a s b : string) :
  Py.contains t s = true -> Py.contains t (a +:+ s +:+ b) = true.
Proof.
  rewrite !contains_iff. intros (x & y & ->).
  exists (a +:+ x), (y +:+ b). by rewrite !app_assoc.
Qed.

End StringFacts.

(** * Splitting and joining *)

Section SplitJoin.

#[local] Arguments Py.join : simpl never.

Lemma join_one (sep w : string) : Py.join sep [w] = w.
Proof. reflexivity. Qed.

Lemma az_not_space (c : ascii) : Py.between 97 122 c = true -> Py.isspace c = false.
Proof. destruct c as [[] [] [] [] [] [] [] []]; vm_compute; done. Qed.

Lemma az_or_blank_kept (c : ascii) :
  az_or_blank c = true ->
  Py.lower_char c = c /\ (Py.isword c || Py.isspace c) = true.
Proof. destruct c as [[] [] [] [] [] [] [] []]; vm_compute; done. Qed.

Lemma flush_nonempty (cur : string) : cur <> "" -> Py.flush cur = [cur].
Proof. by destruct cur. Qed.

Lemma join_two (sep w w' : string) (l : list string) :
  Py.join sep (w :: w' :: l) = w +:+ sep +:+ Py.join sep (w' :: l).
Proof. reflexivity. Qed.

Lemma join_cons_nonempty (sep w : string) (l : list string) :
  l <> [] -> Py.join sep (w :: l) = w +:+ sep +:+ Py.join sep l.
Proof. by destruct l. Qed.

Lemma join_cons_head (sep w : string) (l : list string) :
  exists rest, Py.join sep (w :: l) = w +:+ rest.
Proof.
  destruct l as [|w' l].
  - exists "". by rewrite app_nil_r.
  - by exists (sep +:+ Py.join sep (w' :: l)).
Qed.

Lemma join_app_tail (sep : string) (pre l : list string) :
  l <> [] -> exists x, Py.join sep (pre ++ l) = x +:+ Py.join sep l.
Proof.
  intros Hl. induction pre as [|w pre [x IH]].
  - by exists "".
  - exists (w +:+ sep +:+ x). simpl app.
    rewrite join_cons_nonempty, IH, !app_assoc; [done|].
    destruct pre; [done|discriminate].
Qed.

(** Reading a word with no white space extends the word being read. *)
Lemma split_from_word (cur w s : string) :
  str_all (fun c => negb (Py.isspace c)) w = true ->
  Py.split_from cur (w +:+ s) = Py.split_from (cur +:+ w) s.
Proof.
  revert cur. induction w as [|c w IH]; intros cur H.
  - by rewrite app_nil_r.
  - simpl in H. apply andb_true_iff in H as [Hc Hw].
    rewrite app_cons. simpl. apply negb_true_iff in Hc. rewrite Hc.
    rewrite IH by done. by rewrite app_assoc.
Qed.

Lemma az_word_no_space (w : string) :
  az_word w = true -> str_all (fun c => negb (Py.isspace c)) w = true.
Proof.
  intros H. assert (str_all (Py.between 97 122) w = true) as Hall by (by destruct w).
  clear H. induction w as [|c w IH]; [done|]. simpl in *.
  apply andb_true_iff in Hall as [Hc Hw].
  by rewrite (az_not_space _ Hc), IH.
Qed.

Lemma az_word_nonempty (w : string) : az_word w = true -> w <> "".
Proof. by destruct w. Qed.

(** Once a word has been started, it is the head of what comes out. *)
Lemma join_split_from_started (cur b : string) :
  cur <> "" -> exists rest, Py.join " " (Py.split_from cur b) = cur +:+ rest.
Proof.
  revert cur. induction b as [|c b IH]; intros cur Hcur; simpl.
  - rewrite flush_nonempty by done. exists "". by rewrite app_nil_r.
  - destruct (Py.isspace c).
    + rewrite flush_nonempty by done. apply join_cons_head.
    + destruct (IH (cur +:+ String c "")) as [rest Hrest].
      { intros [? ?]%app_eq_nil. done. }
      exists (String c rest). by rewrite Hrest, app_assoc.
Qed.

Lemma join_phrase_nonempty (us : list string) :
  us <> [] -> Forall (fun u => az_word u = true) us -> Py.join " " us <> "".
Proof.
  intros Hne Hall. destruct us as [|u us]; [done|].
  apply Forall_cons in Hall as [Hu _]. apply az_word_nonempty in Hu.
  destruct (join_cons_head " " u us) as [rest ->].
  intros [? ?]%app_eq_nil. done.
Qed.

(** A phrase of a-z words separated by single spaces comes out of
    [split] and [join] as it went in. *)
Lemma join_split_phrase (us : list string) :
  us <> [] -> Forall (fun u => az_word u = true) us ->
  forall cur b, exists rest,
    Py.join " " (Py.split_from cur (Py.join " " us +:+ b))
    = cur +:+ Py.join " " us +:+ rest.
Proof.
  induction us as [|u us IH]; [done|]. intros _ Hall cur b.
  apply Forall_cons in Hall as [Hu Hus].
  destruct us as [|u' us].
  - rewrite join_one, split_from_word by by apply az_word_no_space.
    destruct (join_split_from_started (cur +:+ u) b) as [rest Hrest].
    { intros [? ?]%app_eq_nil. by apply az_word_nonempty in Hu. }
    exists rest. by rewrite Hrest, app_assoc.
  - rewrite join_two, !app_assoc.
    rewrite split_from_word by by apply az_word_no_space.
    rewrite app_cons, app_nil_l. simpl Py.split_from.
    rewrite flush_nonempty.
    2:{ intros [? ?]%app_eq_nil. by apply az_word_nonempty in Hu. }
    destruct (IH ltac:(done) Hus "" b) as [rest Hrest].
    rewrite app_nil_l in Hrest.
    simpl app. rewrite join_cons_nonempty.
    2:{ intros Hnil. rewrite Hnil in Hrest. symmetry in Hrest.
        apply app_eq_nil in Hrest as [Hj _].
        by apply (join_phrase_nonempty (u' :: us)). }
    exists rest. by rewrite Hrest, !app_assoc.
Qed.

Lemma split_from_phrase (us : list string) (b : string) :
  us <> [] -> Forall (fun u => az_word u = true) us ->
  forall a cur,
    Py.contains (Py.join " " us)
      (Py.join " " (Py.split_from cur (a +:+ Py.join " " us +:+ b))) = true.
Proof.
  intros Hne Hall a. induction a as [|c a IH]; intros cur.
  - rewrite app_nil_l. destruct (join_split_phrase us Hne Hall cur b) as [rest ->].
    apply contains_iff. by exists cur, rest.
  - rewrite app_cons. simpl. destruct (Py.isspace c); [|apply IH].
    specialize (IH "").
    destruct (join_app_tail " " (Py.flush cur)
                (Py.split_from "" (a +:+ Py.join " " us +:+ b))) as [x ->].
    + intros Hnil. rewrite Hnil in IH.
      rewrite contains_unfold, orb_false_r in IH.
      apply startswith_inv in IH as [? [Hj _]%eq_sym%app_eq_nil].
      by apply (join_phrase_nonempty us).
    + rewrite <- (app_nil_r (Py.join " " (Py.split_from _ _))).
      by apply contains_app.
Qed.

End SplitJoin.

(** * Normalisation keeps a phrase of plain words *)

Section Normalisation.

#[local] Arguments Py.join : simpl never.

Lemma str_all_app (p : ascii -> bool) (s t : string) :
  str_all p (s +:+ t) = str_all p s && str_all p t.
Proof.
  induction s as [|c s IH]; [done|]. rewrite app_cons. simpl.
  by rewrite IH, andb_assoc.
Qed.

Lemma str_all_weaken (p p' : ascii -> bool) (s : string) :
  (forall c, p c = true -> p' c = true) -> str_all p s = true -> str_all p' s = true.
Proof.
  intros Hp. induction s as [|c s IH]; [done|]. simpl.
  intros [Hc Hs]%andb_true_iff. by rewrite (Hp _ Hc), IH.
Qed.

Lemma phrase_az_or_blank (us : list string) :
  Forall (fun u => az_word u = true) us ->
  str_all az_or_blank (Py.join " " us) = true.
Proof.
  induction 1 as [|u us Hu Hus IH]; [done|].
  assert (str_all az_or_blank u = true) as Hu'.
  { apply (str_all_weaken (Py.between 97 122)).
    - intros c Hc. unfold az_or_blank. by rewrite Hc.
    - by destruct u. }
  destruct us as [|u' us]; [done|].
  rewrite join_two, !str_all_app, Hu', IH. done.
Qed.

Lemma normalise_fixed (p : string) :
  str_all az_or_blank p = true ->
  Py.str_filter (fun c => Py.isword c || Py.isspace c) (Py.lower p) = p.
Proof.
  unfold Py.lower. induction p as [|c p IH]; [done|]. simpl.
  intros [Hc Hp]%andb_true_iff.
  destruct (az_or_blank_kept c Hc) as [-> ->]. by rewrite IH.
Qed.

(** A phrase of a-z words separated by single spaces that occurs in the
    raw query occurs in the space-joined token string. *)
Lemma tokens_keep_phrase (us : list string) (query : string) :
  us <> [] -> Forall (fun u => az_word u = true) us ->
  Py.contains (Py.join " " us) query = true ->
  Py.contains (Py.join " " us) (Py.join " " (tokens query)) = true.
Proof.
  intros Hne Hall (a & b & ->)%contains_iff.
  pose proof (normalise_fixed _ (phrase_az_or_blank us Hall)) as Hfix.
  unfold tokens, Py.lower, Py.split in *.
  rewrite !str_map_app, !str_filter_app, Hfix.
  by apply split_from_phrase.
Qed.

End Normalisation.

(** * The stable identifier *)

Section Numbers.
Local Open Scope Z_scope.

Lemma ord_chr (z : Z) : 0 <= z < 256 -> Py.ord (Py.chr z) = z.
Proof.
  intros Hz. unfold Py.ord, Py.chr.
  rewrite N_ascii_embedding by lia. lia.
Qed.

Lemma hex_value_hex_digit (n : Z) :
  0 <= n < 16 -> Py.hex_value (MD5.hex_digit n) = Some n.
Proof.
  intros Hn. rewrite <- (Z2Nat.id n) by lia.
  assert (Z.to_nat n < 16)%nat as Hk by lia.
  revert Hk. generalize (Z.to_nat n) as k. intros k Hk.
  do 16 (destruct k as [|k]; [reflexivity|]). lia.
Qed.

Lemma le_bytes_4 (x : Z) :
  MD5.le_bytes 4 x =
  [x mod 256; x / 256 mod 256; x / 256 / 256 mod 256; x / 256 / 256 / 256 mod 256].
Proof. reflexivity. Qed.

(** The first eight hexadecimal digits of a digest read as a number. *)
Lemma int_base16_first_bytes (b0 b1 b2 b3 : Z) (rest : list Z) :
  0 <= b0 < 256 -> 0 <= b1 < 256 -> 0 <= b2 < 256 -> 0 <= b3 < 256 ->
  Py.int_base16 (Py.str_take 8 (MD5.hex_of_bytes (b0 :: b1 :: b2 :: b3 :: rest)))
  = Ok (16777216 * b0 + 65536 * b1 + 256 * b2 + b3).
Proof.
  intros H0 H1 H2 H3.
  cbn [MD5.hex_of_bytes Py.str_take]. unfold Py.int_base16. cbn [Py.int16_from].
  rewrite !hex_value_hex_digit by div_lia.
  f_equal. div_lia.
Qed.

(** [stable_id] never raises, and the identifier is a 32-bit number. *)
Lemma stable_id_ok (query : string) :
  exists id, stable_id query = Ok id /\ 0 <= id < 2 ^ 32.
Proof.
  unfold stable_id, MD5.hexdigest, MD5.digest.
  destruct (fold_left MD5.compress _ _) as [[[a b] c] d].
  rewrite le_bytes_4. cbn [app].
  eexists. split.
  - apply int_base16_first_bytes; apply Z.mod_pos_bound; lia.
  - pose proof (Z.mod_pos_bound a 256 ltac:(lia)).
    pose proof (Z.mod_pos_bound (a / 256) 256 ltac:(lia)).
    pose proof (Z.mod_pos_bound (a / 256 / 256) 256 ltac:(lia)).
    pose proof (Z.mod_pos_bound (a / 256 / 256 / 256) 256 ltac:(lia)).
    change (2 ^ 32) with 4294967296. lia.
Qed.

End Numbers.

(** * Decimal formatting *)

Section Decimal.
Local Open Scope Z_scope.

Lemma length_app_char (s : string) (c : ascii) :
  String.length (s +:+ String c "") = S (String.length s).
Proof. rewrite app_length. simpl. lia. Qed.

Lemma dec_value_from_app (acc : Z) (s t : string) :
  dec_value_from acc (s +:+ t) = dec_value_from (dec_value_from acc s) t.
Proof.
  revert acc. induction s as [|c s IH]; intros acc; [done|].
  rewrite app_cons. simpl. apply IH.
Qed.

Lemma digit_chr (d : Z) : 0 <= d < 10 -> is_digit (Py.chr (48 + d)) = true.
Proof.
  intros Hd. unfold is_digit, Py.between. rewrite ord_chr by lia.
  apply andb_true_iff. split; apply Z.leb_le; lia.
Qed.

(** The digits are decimal digits, whatever the fuel. *)
Lemma dec_digits_all_digits (fuel : nat) (n : Z) :
  0 <= n -> str_all is_digit (Py.dec_digits fuel n) = true.
Proof.
  revert n. induction fuel as [|fuel IH]; intros n Hn; [done|]. simpl.
  destruct (Z.ltb_spec n 10).
  - simpl. rewrite digit_chr by lia. done.
  - rewrite str_all_app, IH by div_lia. simpl.
    rewrite digit_chr by div_lia. done.
Qed.

(** With enough fuel the digits denote the number. *)
Lemma dec_digits_value (fuel : nat) (n : Z) :
  0 <= n < 2 ^ Z.of_nat fuel -> dec_value (Py.dec_digits fuel n) = n.
Proof.
  unfold dec_value. revert n. induction fuel as [|fuel IH]; intros n Hn.
  - change (2 ^ Z.of_nat 0) with 1 in Hn. simpl. lia.
  - simpl Py.dec_digits. destruct (Z.ltb_spec n 10).
    + simpl. rewrite ord_chr by lia. lia.
    + rewrite dec_value_from_app, IH.
      * simpl. rewrite ord_chr by div_lia. div_lia.
      * rewrite Nat2Z.inj_succ, Z.pow_succ_r in Hn by lia. div_lia.
Qed.

Lemma dec_digits_length (k fuel : nat) (n : Z) :
  (k < fuel)%nat -> digits_range k n ->
  String.length (Py.dec_digits fuel n) = S k.
Proof.
  revert fuel n. induction k as [|k IH]; intros fuel n Hfuel Hn.
  - destruct fuel as [|fuel]; [lia|]. simpl in *.
    destruct (Z.ltb_spec n 10); [done|lia].
  - destruct fuel as [|fuel]; [lia|]. unfold digits_range in Hn.
    rewrite !Nat2Z.inj_succ, !Z.pow_succ_r in Hn by lia.
    assert (0 < 10 ^ Z.of_nat k) by (apply Z.pow_pos_nonneg; lia).
    simpl Py.dec_digits. destruct (Z.ltb_spec n 10); [lia|].
    rewrite length_app_char. f_equal. apply IH; [lia|].
    destruct k as [|k].
    + change (10 ^ Z.of_nat 0) with 1 in *. unfold digits_range. div_lia.
    + unfold digits_range. rewrite !Nat2Z.inj_succ, !Z.pow_succ_r by lia.
      rewrite !Nat2Z.inj_succ, !Z.pow_succ_r in Hn by lia. div_lia.
Qed.

Lemma dec_digits_length_le (k fuel : nat) (n : Z) :
  0 <= n < 10 ^ Z.of_nat (S k) ->
  (String.length (Py.dec_digits fuel n) <= S k)%nat.
Proof.
  revert fuel n. induction k as [|k IH]; intros fuel n Hn.
  - destruct fuel as [|fuel]; simpl; [lia|].
    change (10 ^ Z.of_nat 1) with 10 in Hn.
    destruct (Z.ltb_spec n 10); [simpl|]; lia.
  - destruct fuel as [|fuel]; simpl; [lia|].
    destruct (Z.ltb_spec n 10); [simpl; lia|].
    rewrite length_app_char. apply le_n_S, IH.
    rewrite (Nat2Z.inj_succ (S k)), Z.pow_succ_r in Hn by lia. div_lia.
Qed.

Lemma str_nat_fuel (n : Z) : 0 <= n -> n < 2 ^ Z.of_nat (S (Z.to_nat (Z.log2 n))).
Proof.
  intros Hn. rewrite Nat2Z.inj_succ, Z2Nat.id by apply Z.log2_nonneg.
  destruct (Z.eq_dec n 0) as [->|]; [done|].
  apply Z.log2_spec. lia.
Qed.

Lemma str_nat_value (n : Z) : 0 <= n -> dec_value (Py.str_nat n) = n.
Proof. intros Hn. apply dec_digits_value. split; [done|]. by apply str_nat_fuel. Qed.

Lemma str_nat_length (k : nat) (n : Z) :
  digits_range k n -> String.length (Py.str_nat n) = S k.
Proof.
  intros Hn. apply dec_digits_length; [|done].
  destruct k as [|k]; [lia|]. unfold digits_range in Hn.
  assert (Z.of_nat (S k) <= Z.log2 n); [|lia].
  apply Z.log2_le_pow2.
  - assert (0 < 10 ^ Z.of_nat (S k)) by (apply Z.pow_pos_nonneg; lia). lia.
  - etrans; [|apply Hn]. apply Z.pow_le_mono_l. lia.
Qed.

Lemma zeros_length (k : nat) : String.length (Py.zeros k) = k.
Proof. induction k; simpl; congruence. Qed.

Lemma zeros_all_digits (k : nat) : str_all is_digit (Py.zeros k) = true.
Proof. induction k; [done|]. simpl. by rewrite IHk. Qed.

Lemma zeros_value (k : nat) (s : string) :
  dec_value (Py.zeros k +:+ s) = dec_value s.
Proof.
  unfold dec_value. rewrite dec_value_from_app. f_equal.
  induction k; [done|]. simpl. apply IHk.
Qed.

Lemma zfill_length (width : nat) (s : string) :
  String.length (Py.zfill width s) = Nat.max width (String.length s).
Proof. unfold Py.zfill. rewrite app_length, zeros_length. lia. Qed.

(** What [f"{id:08d}"] is for a 32-bit identifier. *)
Lemma format_08d_spec (id : Z) :
  0 <= id < 2 ^ 32 ->
  str_all is_digit (Py.format_08d id) = true
  /\ dec_value (Py.format_08d id) = id
  /\ (8 <= String.length (Py.format_08d id) <= 10)%nat
  /\ (String.length (Py.format_08d id) = 8%nat <-> id < 10 ^ 8).
Proof.
  intros Hid. change (2 ^ 32) with 4294967296 in Hid. unfold Py.format_08d.
  destruct (Z.ltb_spec id 0); [lia|].
  split; [|split].
  - unfold Py.zfill. rewrite str_all_app, zeros_all_digits. simpl.
    apply dec_digits_all_digits. lia.
  - unfold Py.zfill. rewrite zeros_value. apply str_nat_value. lia.
  - rewrite zfill_length.
    destruct (Z.lt_ge_cases id (10 ^ 8)) as [Hlt|Hge].
    + pose proof (dec_digits_length_le 7 (S (Z.to_nat (Z.log2 id))) id
                    ltac:(split; [lia|exact Hlt])) as Hlen.
      fold (Py.str_nat id) in Hlen. lia.
    + destruct (Z.lt_ge_cases id (10 ^ 9)) as [Hlt9|Hge9].
      * rewrite (str_nat_length 8) by (split; [exact Hge|exact Hlt9]). lia.
      * rewrite (str_nat_length 9).
        2:{ split; [exact Hge9|]. change (10 ^ Z.of_nat 10) with 10000000000. lia. }
        lia.
Qed.

End Decimal.

(** * encode_query *)

Section EncodeQuery.

(** [encode_query] returns for every query, and this is what it returns. *)
Lemma encode_query_ok (query : string) :
  exists id,
    stable_id query = Ok id /\ (0 <= id < 2 ^ 32)%Z /\
    encode_query query = Ok {|
      name := "query_" +:+ Py.format_08d id;
      attributes := {|
        customer_id := PStr "";
        risk_level := PStr (_infer_risk (tokens query));
        churn_driver := PStr (_infer_driver (tokens query));
        usage_band := PStr (_infer_usage_band (tokens query));
        keywords := PStr (Py.join " " (filter (fun w => w ∉ _STOP_WORDS) (tokens query)));
        logins := PInt 50;
        support_cases := PInt 2;
        defects := PInt 1;
        feature_adoption := PInt 50
      |}
    |}.
Proof.
  destruct (stable_id_ok query) as (id & Hid & Hrange).
  exists id. repeat split; try done; try apply Hrange.
  unfold encode_query. by rewrite Hid.
Qed.

Lemma infer_risk_cases (words : list string) :
  let text := Py.join " " words in
  _infer_risk words =
  if any_in (triggers "high") text then "high"
  else if any_in (triggers "medium") text then "medium"
  else if any_in (triggers "low") text then "low"
  else "medium".
Proof.
  intros text. unfold _infer_risk. fold text.
  change (first_level _RISK_KEYWORDS text) with
    (if any_in (triggers "high") text then Some "high"
     else if any_in (triggers "medium") text then Some "medium"
     else if any_in (triggers "low") text then Some "low"
     else None).
  by repeat destruct (any_in _ _).
Qed.

(** Every high-risk trigger is a phrase of a-z words separated by single
    spaces. *)
Lemma high_trigger_phrase (t : string) :
  In t (triggers "high") ->
  exists us, us <> [] /\ Forall (fun u => az_word u = true) us /\ t = Py.join " " us.
Proof.
  intros H. exists (Py.split t).
  change (triggers "high") with
    ["churn"; "cancel"; "leaving"; "at risk"; "critical"; "red"; "danger";
     "inactive"; "zero logins"; "no activity"; "escalat"] in H.
  simpl in H.
  repeat (destruct H as [<- | H];
          [split; [done|]; split; [by repeat constructor|reflexivity]|]).
  done.
Qed.

Lemma any_in_true (ts : list string) (t text : string) :
  In t ts -> Py.contains t text = true -> any_in ts text = true.
Proof. intros Hin Ht. apply existsb_exists. by exists t. Qed.

End EncodeQuery.

(** C1: for every query the risk level is the first of high, medium, low
    one of whose triggers occurs in the space-joined token string, and
    "medium" when none does; a query in which a high-risk trigger occurs
    (such as "churn") is classified "high" even when a low-risk trigger
    (such as "stable") occurs in it too. *)
Theorem risk_priority_order (query : string) :
  returns (encode_query query) (fun r =>
    let text := Py.join " " (tokens query) in
    risk_level (attributes r) =
      PStr (if any_in (triggers "high") text then "high"
            else if any_in (triggers "medium") text then "medium"
            else if any_in (triggers "low") text then "low"
            else "medium")
    /\ In "churn" (triggers "high") /\ In "stable" (triggers "low")
    /\ forall t_high t_low,
         In t_high (triggers "high") -> In t_low (triggers "low") ->
         Py.contains t_high query = true -> Py.contains t_low query = true ->
         risk_level (attributes r) = PStr "high").
Proof.
  destruct (encode_query_ok query) as (id & _ & _ & ->).
  cbn [returns attributes risk_level].
  rewrite infer_risk_cases. split; [done|].
  split; [vm_compute; tauto|]. split; [vm_compute; tauto|].
  intros t_high t_low Hhigh _ Hin _.
  destruct (high_trigger_phrase _ Hhigh) as (us & Hne & Hall & ->).
  rewrite (any_in_true _ _ _ Hhigh); [done|].
  by apply tokens_keep_phrase.
Qed.

Lemma risk_priority_order_witness :
  returns (encode_query "will they churn or stay stable?") (fun r =>
    risk_level (attributes r) = PStr "high").
Proof.
  pose proof (risk_priority_order "will they churn or stay stable?") as H.
  destruct (encode_query _) as [r|]; [|exact H].
  destruct H as (_ & Hhigh & Hlow & H).
  apply (H "churn" "stable" Hhigh Hlow); by vm_compute.
Defined.

(** C2, as stated, fails: the name of the empty query has ten digits. *)
Lemma name_eight_digits_counterexample :
  returns (encode_query "") (fun r =>
    name r = "query_3558706393" /\ ~ eight_digit_name (name r)).
Proof.
  assert (encode_query "" = Ok {|
    name := "query_3558706393";
    attributes := {|
      customer_id := PStr ""; risk_level := PStr "medium";
      churn_driver := PStr "low_usage"; usage_band := PStr "stable";
      keywords := PStr ""; logins := PInt 50; support_cases := PInt 2;
      defects := PInt 1; feature_adoption := PInt 50 |} |}) as ->
    by (vm_compute; reflexivity).
  cbn [returns name]. split; [done|].
  intros (d & Hd & Hlen & _).
  rewrite !app_cons, app_nil_l in Hd. injection Hd as <-. discriminate Hlen.
Qed.

(** C2, amended: the name is the prefix "query_" followed by the decimal
    digits of the identifier, padded with zeros on the left to at least
    eight digits; the identifier is the 32-bit number that the first eight
    hexadecimal digits of the MD5 digest of the raw query denote.  The name
    has eight to ten digits, and eight exactly when the identifier is below
    10^8. *)
Theorem name_is_padded_identifier (query : string) :
  returns (encode_query query) (fun r =>
    exists id,
      Py.int_base16 (Py.str_take 8 (MD5.hexdigest (Py.encode query))) = Ok id
      /\ (0 <= id < 2 ^ 32)%Z
      /\ name r = "query_" +:+ Py.format_08d id
      /\ str_all is_digit (Py.format_08d id) = true
      /\ dec_value (Py.format_08d id) = id
      /\ 8 <= String.length (Py.format_08d id) <= 10
      /\ (String.length (Py.format_08d id) = 8 <-> (id < 10 ^ 8)%Z)).
Proof.
  destruct (encode_query_ok query) as (id & Hid & Hrange & ->).
  cbn [returns name]. exists id.
  destruct (format_08d_spec id Hrange) as (Hdigits & Hvalue & Hlen & Height).
  done.
Qed.



(** C5: whatever the query, the numeric attributes are 50, 2, 1 and 50 and
    the customer id is the empty string. *)
Theorem query_numeric_defaults (query : string) :
  returns (encode_query query) (fun r =>
    logins (attributes r) = PInt 50
    /\ support_cases (attributes r) = PInt 2
    /\ defects (attributes r) = PInt 1
    /\ feature_adoption (attributes r) = PInt 50
    /\ customer_id (attributes r) = PStr "").
Proof.
  destruct (encode_query_ok query) as (id & _ & _ & ->).
  by cbn [returns].
Qed.



(** C9: for the query "customer is completely inactive with zero logins"
    [encode_query] returns the risk level "high", the usage band
    "inactive" and the churn driver "low_usage". *)
Theorem inactive_zero_logins_scenario :
  returns (encode_query "customer is completely inactive with zero logins") (fun r =>
    risk_level (attributes r) = PStr "high"
    /\ usage_band (attributes r) = PStr "inactive"
    /\ churn_driver (attributes r) = PStr "low_usage").
Proof. vm_compute. done. Qed.

(** * Keywords *)

Section Keywords.

#[local] Arguments Py.join : simpl never.

Lemma is_token_no_space (w : string) :
  is_token w = true -> str_all (fun c => negb (Py.isspace c)) w = true.
Proof. by destruct w. Qed.

Lemma is_token_nonempty (w : string) : is_token w = true -> w <> "".
Proof. by destruct w. Qed.

Lemma flush_tokens (cur : string) :
  str_all (fun c => negb (Py.isspace c)) cur = true ->
  Forall (fun w => is_token w = true) (Py.flush cur).
Proof. destruct cur; [constructor|]. intros H. by repeat constructor. Qed.

Lemma split_from_tokens (s cur : string) :
  str_all (fun c => negb (Py.isspace c)) cur = true ->
  Forall (fun w => is_token w = true) (Py.split_from cur s).
Proof.
  revert cur. induction s as [|c s IH]; intros cur Hcur; simpl.
  - by apply flush_tokens.
  - destruct (Py.isspace c) eqn:Hc.
    + apply Forall_app. split; [by apply flush_tokens|by apply IH].
    + apply IH. rewrite str_all_app, Hcur. simpl. by rewrite Hc.
Qed.

Lemma tokens_are_tokens (query : string) :
  Forall (fun w => is_token w = true) (tokens query).
Proof. by apply split_from_tokens. Qed.

(** Splitting the space-joined tokens gives the tokens back. *)
Lemma split_from_join (ws : list string) :
  Forall (fun w => is_token w = true) ws ->
  forall cur,
    Py.split_from cur (Py.join " " ws) =
    match ws with
    | [] => Py.flush cur
    | w :: rest => (cur +:+ w) :: rest
    end.
Proof.
  induction 1 as [|w ws Hw Hws IH]; intros cur; [done|].
  destruct ws as [|w' ws].
  - rewrite join_one, <- (app_nil_r w) at 1.
    rewrite split_from_word by by apply is_token_no_space.
    simpl. apply flush_nonempty.
    intros [? ?]%app_eq_nil. by apply is_token_nonempty in Hw.
  - rewrite join_two, split_from_word by by apply is_token_no_space.
    rewrite app_cons, app_nil_l. simpl Py.split_from.
    rewrite flush_nonempty, IH; [done|].
    intros [? ?]%app_eq_nil. by apply is_token_nonempty in Hw.
Qed.

Lemma split_join (ws : list string) :
  Forall (fun w => is_token w = true) ws -> Py.split (Py.join " " ws) = ws.
Proof.
  intros Hws. unfold Py.split. rewrite split_from_join by done.
  by destruct ws.
Qed.

End Keywords.

(** C8: the keywords are the tokens that are not stop words, in their
    order, joined with single spaces (splitting the keywords gives exactly
    those tokens back); for "how do I find the customers at risk" they are
    "find customers at risk", where "how", "do" and "the" occur neither as
    words nor as substrings. *)
Theorem keywords_drop_stop_words (query : string) :
  returns (encode_query query) (fun r =>
    exists kw,
      keywords (attributes r) = PStr kw
      /\ kw = Py.join " " (filter (fun w => w ∉ _STOP_WORDS) (tokens query))
      /\ Py.split kw = filter (fun w => w ∉ _STOP_WORDS) (tokens query))
  /\ returns (encode_query "how do I find the customers at risk") (fun r =>
       keywords (attributes r) = PStr "find customers at risk"
       /\ forall w, In w ["how"; "do"; "the"] ->
            ~ In w (Py.split "find customers at risk")
            /\ Py.contains w "find customers at risk" = false).
Proof.
  split.
  - destruct (encode_query_ok query) as (id & _ & _ & ->).
    cbn [returns attributes keywords]. eexists. split; [done|]. split; [done|].
    apply split_join, Forall_forall. intros w [_ Hw]%list_elem_of_filter.
    revert w Hw. apply Forall_forall, tokens_are_tokens.
  - vm_compute. split; [done|].
    intros w Hw. repeat (destruct Hw as [<- | Hw]; [split; [intuition discriminate|done]|]).
    done.
Qed.

Lemma keywords_drop_stop_words_witness :
  ~ In "the" (Py.split "find customers at risk").
Proof.
  destruct (keywords_drop_stop_words "") as [_ H].
  destruct (encode_query "how do I find the customers at risk") as [r|]; [|done].
  destruct H as [_ H]. apply (H "the"). simpl. tauto.
Defined.

(** * entry_to_record *)

Section EntryToRecord.








End EntryToRecord.








(** * Further properties of the query classifier *)

Section Returns.

Context {A : Type}.

Lemma returns_inv (m : result A) (P : A -> Prop) :
  returns m P -> exists a, m = Ok a /\ P a.
Proof. destruct m as [a|e]; [by exists a|done]. Qed.

Lemma returns_impl (m : result A) (P Q : A -> Prop) :
  (forall a, P a -> Q a) -> returns m P -> returns m Q.
Proof. intros HPQ. destruct m as [a|e]; [apply HPQ|done]. Qed.

End Returns.

Section Classifier.

#[local] Arguments Py.join : simpl never.

Lemma tokens_cleaned (query : string) : tokens query = Py.split (cleaned query).
Proof. reflexivity. Qed.

Lemma lower_char_facts (c : ascii) :
  Py.lower_char (Py.lower_char c) = Py.lower_char c
  /\ (Py.isword (Py.lower_char c) || Py.isspace (Py.lower_char c))
     = (Py.isword c || Py.isspace c)
  /\ (Py.isspace c = true -> Py.lower_char c = c /\ Py.isword c = false)
  /\ (Py.isword c = false -> Py.lower_char c = c).
Proof. destruct c as [[] [] [] [] [] [] [] []]; vm_compute; done. Qed.

Lemma str_filter_map_comm (p : ascii -> bool) (f : ascii -> ascii) (s : string) :
  (forall c, p (f c) = p c) ->
  Py.str_filter p (Py.str_map f s) = Py.str_map f (Py.str_filter p s).
Proof.
  intros Hp. induction s as [|c s IH]; [done|]. simpl.
  rewrite Hp. destruct (p c); simpl; by rewrite IH.
Qed.

Lemma str_filter_idem (p : ascii -> bool) (s : string) :
  Py.str_filter p (Py.str_filter p s) = Py.str_filter p s.
Proof.
  induction s as [|c s IH]; [done|]. simpl.
  destruct (p c) eqn:Hc; simpl; by rewrite ?Hc, IH.
Qed.

Lemma str_map_idem (f : ascii -> ascii) (s : string) :
  (forall c, f (f c) = f c) -> Py.str_map f (Py.str_map f s) = Py.str_map f s.
Proof. intros Hf. induction s as [|c s IH]; [done|]. simpl. by rewrite Hf, IH. Qed.

(** Cleaning a cleaned query changes nothing. *)
Lemma cleaned_idem (query : string) : cleaned (cleaned query) = cleaned query.
Proof.
  unfold cleaned, Py.lower.
  set (keep := fun c => Py.isword c || Py.isspace c).
  assert (forall c, keep (Py.lower_char c) = keep c) as Hkeep
    by (intros c; by destruct (lower_char_facts c) as (_ & ? & _)).
  assert (forall c, Py.lower_char (Py.lower_char c) = Py.lower_char c) as Hidem
    by (intros c; by destruct (lower_char_facts c) as (? & _)).
  rewrite (str_filter_map_comm keep Py.lower_char (Py.str_filter keep _)) by done.
  rewrite str_filter_idem.
  rewrite <- (str_filter_map_comm keep Py.lower_char) by done.
  by rewrite str_map_idem.
Qed.

Lemma cleaned_app (a b : string) : cleaned (a +:+ b) = cleaned a +:+ cleaned b.
Proof. unfold cleaned, Py.lower. by rewrite str_map_app, str_filter_app. Qed.

Lemma cleaned_space (c : ascii) (s : string) :
  Py.isspace c = true -> cleaned (String c s) = String c (cleaned s).
Proof.
  intros Hc. destruct (lower_char_facts c) as (_ & _ & Hsp & _).
  destruct (Hsp Hc) as [Hlow _]. unfold cleaned, Py.lower.
  cbn [Py.str_map Py.str_filter]. by rewrite Hlow, Hc, orb_true_r.
Qed.

(** White space ends the word being read and starts afresh. *)
Lemma split_from_space (cur a b : string) (c : ascii) :
  Py.isspace c = true ->
  Py.split_from cur (a +:+ String c b) = Py.split_from cur a ++ Py.split_from "" b.
Proof.
  intros Hc. revert cur. induction a as [|d a IH]; intros cur.
  - rewrite app_nil_l. simpl. by rewrite Hc.
  - rewrite app_cons. simpl. destruct (Py.isspace d); [|apply IH].
    by rewrite IH, (assoc_L (++)).
Qed.

Lemma tokens_space (a b : string) (c : ascii) :
  Py.isspace c = true -> tokens (a +:+ String c b) = tokens a ++ tokens b.
Proof.
  intros Hc. rewrite !tokens_cleaned, cleaned_app, cleaned_space by done.
  by apply split_from_space.
Qed.

(** The attributes are a function of the tokens. *)
Lemma attributes_of_tokens (q1 q2 : string) :
  tokens q1 = tokens q2 ->
  returns (encode_query q1) (fun r1 =>
    returns (encode_query q2) (fun r2 => attributes r2 = attributes r1)).
Proof.
  intros Heq.
  destruct (encode_query_ok q1) as (id1 & _ & _ & ->).
  destruct (encode_query_ok q2) as (id2 & _ & _ & ->).
  cbn [returns attributes]. by rewrite Heq.
Qed.

Lemma str_all_filter (p : ascii -> bool) (s : string) :
  str_all p (Py.str_filter p s) = true.
Proof. induction s as [|c s IH]; [done|]. simpl. destruct (p c) eqn:Hc; simpl; by rewrite ?Hc. Qed.

(** The words that [split] produces are made of characters of its input. *)
Lemma split_from_chars (p : ascii -> bool) (s cur : string) :
  str_all p cur = true -> str_all p s = true ->
  Forall (fun w => str_all p w = true) (Py.split_from cur s).
Proof.
  revert cur. induction s as [|c s IH]; intros cur Hcur Hs; simpl.
  - destruct cur; by repeat constructor.
  - simpl in Hs. apply andb_true_iff in Hs as [Hc Hs].
    destruct (Py.isspace c).
    + apply Forall_app. split; [destruct cur; by repeat constructor|by apply IH].
    + apply IH; [|done]. rewrite str_all_app, Hcur. simpl. by rewrite Hc.
Qed.

Lemma cleaned_chars (query : string) :
  str_all (fun c => (Py.isword c || Py.isspace c) && Ascii.eqb (Py.lower_char c) c)
    (cleaned query) = true.
Proof.
  unfold cleaned, Py.lower. induction query as [|c q IH]; [reflexivity|].
  cbn [Py.str_map Py.str_filter].
  destruct (lower_char_facts c) as (Hidem & _).
  destruct (Py.isword (Py.lower_char c) || Py.isspace (Py.lower_char c)) eqn:Hkeep;
    [|exact IH].
  cbn [str_all]. by rewrite Hkeep, Hidem, Ascii.eqb_refl, IH.
Qed.

Lemma str_all_and (p p' : ascii -> bool) (s : string) :
  str_all p s = true -> str_all p' s = true ->
  str_all (fun c => p c && p' c) s = true.
Proof.
  induction s as [|c s IH]; [done|]. simpl.
  intros [-> Hs]%andb_true_iff [-> Hs']%andb_true_iff. by rewrite IH.
Qed.

End Classifier.

(** X1: every token of a query is a non-empty string of word characters,
    none of them white space and none changed by [lower]. *)
Theorem tokens_are_lowered_words (query w : string) :
  In w (tokens query) ->
  w <> ""
  /\ str_all lowered_word_char w = true
  /\ str_all (fun c => negb (Py.isspace c)) w = true.
Proof.
  intros Hw%list_elem_of_In.
  pose proof (tokens_are_tokens query) as Htok.
  pose proof (split_from_chars _ (cleaned query) "" eq_refl (cleaned_chars query)) as Hchars.
  rewrite Forall_forall in Htok, Hchars.
  specialize (Htok w Hw). specialize (Hchars w Hw).
  split; [by apply is_token_nonempty|].
  split; [|by apply is_token_no_space].
  apply is_token_no_space in Htok.
  pose proof (str_all_and _ _ _ Hchars Htok) as Hboth.
  revert Hboth. apply str_all_weaken. intros c. unfold lowered_word_char.
  destruct (Py.isword c), (Py.isspace c), (Ascii.eqb (Py.lower_char c) c); done.
Qed.

Lemma tokens_are_lowered_words_witness :
  "atrisk" <> "" /\ str_all lowered_word_char "atrisk" = true.
Proof.
  destruct (tokens_are_lowered_words "Who is AT-RISK?" "atrisk") as (H1 & H2 & _).
  - vm_compute. tauto.
  - by split.
Defined.

Section ClassifierLaws.

#[local] Arguments Py.join : simpl never.

Lemma cleaned_wordless (query : string) :
  str_all (fun c => negb (Py.isword c)) query = true ->
  str_all Py.isspace (cleaned query) = true.
Proof.
  unfold cleaned, Py.lower. induction query as [|c q IH]; [reflexivity|].
  cbn [str_all Py.str_map Py.str_filter].
  intros [Hc Hq]%andb_true_iff. apply negb_true_iff in Hc.
  destruct (lower_char_facts c) as (_ & _ & _ & Hlow). rewrite (Hlow Hc), Hc.
  cbn [orb]. destruct (Py.isspace c) eqn:Hsp; cbn [str_all]; rewrite ?Hsp;
    by apply IH.
Qed.

Lemma split_from_spaces (s : string) :
  str_all Py.isspace s = true -> Py.split_from "" s = [].
Proof.
  induction s as [|c s IH]; [done|]. simpl.
  intros [-> Hs]%andb_true_iff. by apply IH.
Qed.

Lemma first_mapped_value (table : gmap string string) (fallback : string)
    (words : list string) :
  first_mapped table fallback words = fallback
  \/ exists k, table !! k = Some (first_mapped table fallback words).
Proof.
  induction words as [|w words IH]; simpl; [by left|].
  destruct (table !! only_az w) eqn:Hw; [|done]. right. by exists (only_az w).
Qed.

Lemma table_value_listed (items : list (string * string)) (values : list string)
    (k v : string) :
  forallb (fun kv => bool_decide (kv.2 ∈ values)) items = true ->
  (list_to_map items : gmap string string) !! k = Some v -> In v values.
Proof.
  intros Hall Hk%elem_of_list_to_map_2%list_elem_of_In.
  rewrite forallb_forall in Hall.
  specialize (Hall _ Hk). apply bool_decide_eq_true in Hall.
  by apply list_elem_of_In.
Qed.

Lemma first_mapped_app (table : gmap string string) (fallback : string)
    (l1 l2 : list string) :
  first_mapped table fallback (l1 ++ l2) =
  if names_key table l1 then first_mapped table fallback l1
  else first_mapped table fallback l2.
Proof.
  induction l1 as [|w l1 IH]; [done|].
  unfold names_key in *. cbn [app first_mapped existsb].
  destruct (table !! only_az w) as [v|] eqn:Hw.
  - by rewrite bool_decide_eq_true_2.
  - rewrite bool_decide_eq_false_2 by (by intros [? ?]). apply IH.
Qed.

Lemma join_app_l (sep : string) (l l2 : list string) :
  exists y, Py.join sep (l ++ l2) = Py.join sep l +:+ y.
Proof.
  induction l as [|w l [y IH]].
  - by exists (Py.join sep l2).
  - destruct l as [|w' l].
    + simpl app. rewrite join_one. apply join_cons_head.
    + exists y. change ((w :: w' :: l) ++ l2) with (w :: (w' :: l) ++ l2).
      simpl app in *. by rewrite !join_two, IH, !app_assoc.
Qed.

Lemma join_app_r (sep : string) (l1 l : list string) :
  exists x, Py.join sep (l1 ++ l) = x +:+ Py.join sep l.
Proof.
  destruct l as [|w l].
  - exists (Py.join sep l1). by rewrite (right_id_L [] (++)), app_nil_r.
  - by apply join_app_tail.
Qed.

Lemma any_in_mono (ts : list string) (x text y : string) :
  any_in ts text = true -> any_in ts (x +:+ text +:+ y) = true.
Proof.
  unfold any_in. rewrite !existsb_exists. intros (t & Ht & Hin).
  exists t. split; [done|]. by apply contains_app.
Qed.

Lemma risk_high_iff (words : list string) :
  _infer_risk words = "high" <->
  any_in (triggers "high") (Py.join " " words) = true.
Proof.
  rewrite infer_risk_cases. cbv zeta.
  destruct (any_in (triggers "high") _); [done|].
  by repeat destruct (any_in _ _).
Qed.

Lemma contains_trans (h t q : string) :
  Py.contains h t = true -> Py.contains t q = true -> Py.contains h q = true.
Proof.
  intros (a & b & ->)%contains_iff (x & y & ->)%contains_iff.
  apply contains_iff. exists (x +:+ a), (b +:+ y). by rewrite !app_assoc.
Qed.

End ClassifierLaws.

(** X2: lowercasing a query and removing its punctuation beforehand, as
    [encode_query] itself does, changes none of the attributes. *)
Theorem cleaned_query_same_attributes (query : string) :
  returns (encode_query query) (fun r =>
    returns (encode_query (cleaned query)) (fun r' =>
      attributes r' = attributes r)).
Proof.
  apply attributes_of_tokens.
  by rewrite !tokens_cleaned, cleaned_idem.
Qed.

(** X3: a white-space character cuts a query into two parts that are
    tokenised separately; white space at either end, or doubled, adds no
    token. *)
Theorem tokens_split_at_space (a b : string) (c : ascii) :
  Py.isspace c = true ->
  tokens (a +:+ String c b) = tokens a ++ tokens b
  /\ tokens (String c a) = tokens a
  /\ tokens (a +:+ String c "") = tokens a
  /\ tokens (a +:+ String c (String c b)) = tokens (a +:+ String c b).
Proof.
  intros Hc.
  assert (forall s, tokens (String c s) = tokens s) as Hhead.
  { intros s. by rewrite <- (app_nil_l (String c s)), tokens_space. }
  repeat split.
  - by apply tokens_space.
  - apply Hhead.
  - rewrite tokens_space by done. apply (right_id_L [] (++)).
  - by rewrite !tokens_space, Hhead.
Qed.

Lemma tokens_split_at_space_witness :
  tokens "zero logins" = tokens "zero" ++ tokens "logins".
Proof. apply (tokens_split_at_space "zero" "logins" " "). reflexivity. Defined.

(** X4: a query without any word character, the empty query among them,
    gets the default attributes and no keywords. *)
Theorem wordless_query_defaults (query : string) :
  str_all (fun c => negb (Py.isword c)) query = true ->
  returns (encode_query query) (fun r =>
    attributes r = {|
      customer_id := PStr ""; risk_level := PStr "medium";
      churn_driver := PStr "low_usage"; usage_band := PStr "stable";
      keywords := PStr ""; logins := PInt 50; support_cases := PInt 2;
      defects := PInt 1; feature_adoption := PInt 50 |}).
Proof.
  intros Hq. destruct (encode_query_ok query) as (id & _ & _ & ->).
  cbn [returns attributes].
  assert (tokens query = []) as ->
    by (rewrite tokens_cleaned; by apply split_from_spaces, cleaned_wordless).
  reflexivity.
Qed.

Lemma wordless_query_defaults_witness :
  returns (encode_query "?! ... -- ") (fun r =>
    risk_level (attributes r) = PStr "medium" /\ keywords (attributes r) = PStr "").
Proof.
  pose proof (wordless_query_defaults "?! ... -- " ltac:(by vm_compute)) as H.
  destruct (encode_query _) as [r|]; [|exact H].
  cbn [returns] in *. by rewrite H.
Defined.

(** X5: for every query the risk level is one of high, medium, low, the
    churn driver one of the six drivers and the usage band one of the four
    bands of the tables. *)
Theorem attribute_values_in_range (query : string) :
  returns (encode_query query) (fun r =>
    exists risk driver band,
      risk_level (attributes r) = PStr risk
      /\ In risk ["high"; "medium"; "low"]
      /\ churn_driver (attributes r) = PStr driver
      /\ In driver ["low_usage"; "support_burden"; "defect_frustration";
                    "low_adoption"; "onboarding_stall"; "billing_friction"]
      /\ usage_band (attributes r) = PStr band
      /\ In band ["inactive"; "declining"; "stable"; "growing"]).
Proof.
  destruct (encode_query_ok query) as (id & _ & _ & ->).
  cbn [returns attributes risk_level churn_driver usage_band].
  eexists _, _, _. repeat split.
  - rewrite infer_risk_cases. cbv zeta.
    repeat destruct (any_in _ _); simpl; tauto.
  - unfold _infer_driver.
    destruct (first_mapped_value _CHURN_DRIVERS "low_usage" (tokens query)) as [->|[k Hk]].
    + simpl; tauto.
    + apply (table_value_listed churn_driver_items _ k); [|exact Hk].
      by vm_compute.
  - unfold _infer_usage_band.
    destruct (first_mapped_value _USAGE_BANDS "stable" (tokens query)) as [->|[k Hk]].
    + simpl; tauto.
    + apply (table_value_listed usage_band_items _ k); [|exact Hk].
      by vm_compute.
Qed.

(** X6: every word of the keywords is a token of the query and no stop
    word. *)
Theorem keywords_words_not_stop_words (query : string) :
  returns (encode_query query) (fun r =>
    exists kw,
      keywords (attributes r) = PStr kw
      /\ forall w, In w (Py.split kw) -> In w (tokens query) /\ w ∉ _STOP_WORDS).
Proof.
  destruct (encode_query_ok query) as (id & _ & _ & ->).
  cbn [returns attributes keywords]. eexists. split; [done|].
  intros w. rewrite split_join.
  - by intros [? ?]%list_elem_of_In%list_elem_of_filter%and_comm%(and_iff_compat_r _ (list_elem_of_In _ _)).
  - apply Forall_forall. intros x [_ Hx]%list_elem_of_filter.
    revert x Hx. apply Forall_forall, tokens_are_tokens.
Qed.

Lemma keywords_words_not_stop_words_witness :
  returns (encode_query "what is the churn risk") (fun r =>
    keywords (attributes r) = PStr "churn risk" /\ "risk" ∉ _STOP_WORDS).
Proof.
  pose proof (keywords_words_not_stop_words "what is the churn risk") as H.
  destruct (encode_query _) as [r|] eqn:E; [|exact H].
  destruct H as (kw & Hkw & H).
  assert (keywords (attributes r) = PStr "churn risk") as Heq
    by (vm_compute in E; by injection E as <-).
  split; [done|]. rewrite Heq in Hkw. injection Hkw as <-.
  apply (H "risk"). vm_compute. tauto.
Defined.

(** X7: a query in which some string occurs that has a high-risk trigger
    inside it is classified high.  The medium trigger "reduced" has the
    high trigger "red" inside, and so never decides a risk level. *)
Theorem trigger_inside_trigger (query t h : string) :
  In h (triggers "high") -> Py.contains h t = true -> Py.contains t query = true ->
  returns (encode_query query) (fun r => risk_level (attributes r) = PStr "high").
Proof.
  intros Hh Hht Htq. destruct (encode_query_ok query) as (id & _ & _ & ->).
  cbn [returns attributes risk_level]. f_equal. apply risk_high_iff.
  destruct (high_trigger_phrase _ Hh) as (us & Hne & Hall & ->).
  apply (any_in_true _ _ _ Hh), tokens_keep_phrase; try done.
  by apply (contains_trans _ t).
Qed.

Lemma trigger_inside_trigger_witness :
  In "reduced" (triggers "medium")
  /\ returns (encode_query "Usage has reduced.") (fun r =>
       risk_level (attributes r) = PStr "high").
Proof.
  split; [vm_compute; tauto|].
  apply (trigger_inside_trigger "Usage has reduced." "reduced" "red").
  - vm_compute. tauto.
  - reflexivity.
  - reflexivity.
Defined.

(** X8: a query classified high stays high when more text is put after it
    or before it, separated by a white-space character. *)
Theorem high_risk_survives_more_text (a b : string) (c : ascii) :
  Py.isspace c = true ->
  returns (encode_query a) (fun r => risk_level (attributes r) = PStr "high") ->
  returns (encode_query (a +:+ String c b)) (fun r =>
    risk_level (attributes r) = PStr "high")
  /\ returns (encode_query (b +:+ String c a)) (fun r =>
    risk_level (attributes r) = PStr "high").
Proof.
  intros Hc Ha.
  destruct (encode_query_ok a) as (ida & _ & _ & Hqa). rewrite Hqa in Ha.
  cbn [returns attributes risk_level] in Ha. injection Ha as Ha.
  apply risk_high_iff in Ha.
  split.
  - destruct (encode_query_ok (a +:+ String c b)) as (id & _ & _ & ->).
    cbn [returns attributes risk_level]. f_equal. apply risk_high_iff.
    rewrite tokens_space by done.
    destruct (join_app_l " " (tokens a) (tokens b)) as [y ->].
    rewrite <- (app_nil_l (Py.join " " (tokens a) +:+ y)). by apply any_in_mono.
  - destruct (encode_query_ok (b +:+ String c a)) as (id & _ & _ & ->).
    cbn [returns attributes risk_level]. f_equal. apply risk_high_iff.
    rewrite tokens_space by done.
    destruct (join_app_r " " (tokens b) (tokens a)) as [x ->].
    rewrite <- (app_nil_r (Py.join " " (tokens a))). by apply any_in_mono.
Qed.

Lemma high_risk_survives_more_text_witness :
  returns (encode_query ("they may cancel" +:+ String " " "but seem happy")) (fun r =>
    risk_level (attributes r) = PStr "high").
Proof.
  exact (proj1 (high_risk_survives_more_text "they may cancel" "but seem happy" " "
                  eq_refl ltac:(by vm_compute))).
Defined.

(** X9: when two texts are put together with a white-space character
    between them, the churn driver is that of the first text if one of its
    tokens names a driver, and that of the second text otherwise; the same
    holds for the usage band. *)
Theorem first_named_driver_wins (a b : string) (c : ascii) :
  Py.isspace c = true ->
  returns (encode_query a) (fun ra =>
    returns (encode_query b) (fun rb =>
      returns (encode_query (a +:+ String c b)) (fun r =>
        churn_driver (attributes r) =
          (if names_key _CHURN_DRIVERS (tokens a)
           then churn_driver (attributes ra) else churn_driver (attributes rb))
        /\ usage_band (attributes r) =
          (if names_key _USAGE_BANDS (tokens a)
           then usage_band (attributes ra) else usage_band (attributes rb))))).
Proof.
  intros Hc.
  destruct (encode_query_ok a) as (ida & _ & _ & ->).
  destruct (encode_query_ok b) as (idb & _ & _ & ->).
  destruct (encode_query_ok (a +:+ String c b)) as (id & _ & _ & ->).
  cbn [returns attributes churn_driver usage_band].
  rewrite tokens_space by done. unfold _infer_driver, _infer_usage_band.
  rewrite !first_mapped_app. split; by destruct (names_key _ _).
Qed.

Lemma first_named_driver_wins_witness :
  returns (encode_query ("many support tickets" +:+ String " " "and a billing bug"))
    (fun r => churn_driver (attributes r) = PStr "support_burden").
Proof.
  pose proof (first_named_driver_wins "many support tickets" "and a billing bug" " "
                eq_refl) as H.
  apply returns_inv in H as (ra & Ea & H). apply returns_inv in H as (rb & Eb & H).
  revert H. apply returns_impl. intros r [H _]. rewrite H.
  vm_compute in Ea. injection Ea as <-. by vm_compute.
Defined.

(** * Further properties of the record normaliser *)




(** X12: the outcome of [entry_to_record] depends on the twelve keys it
    reads only: two entries that agree on them give the same record, or
    raise the same exception, whatever other keys they hold. *)
Theorem other_keys_ignored (e1 e2 : gmap string pyval) :
  (forall key, In key entry_keys -> e1 !! key = e2 !! key) ->
  entry_to_record e1 = entry_to_record e2.
Proof.
  intros Hsame.
  assert (forall key dflt, In key entry_keys -> get e1 key dflt = get e2 key dflt) as Hget.
  { intros key dflt Hin. unfold get. by rewrite (Hsame key Hin). }
  unfold entry_to_record.
  rewrite !(Hget "question"), !(Hget "customer_id"), !(Hget "risk_level"),
    !(Hget "churn_driver"), !(Hget "usage_band"), !(Hget "keywords"),
    !(Hget "logins"), !(Hget "support_cases"), !(Hget "defects"),
    !(Hget "feature_adoption"), !(Hget "response"), !(Hget "recommended_action")
    by (simpl; tauto).
  reflexivity.
Qed.

Lemma other_keys_ignored_witness :
  entry_to_record (<[ "_expected_risk" := PStr "high" ]> {[ "logins" := PInt 3 ]})
  = entry_to_record {[ "logins" := PInt 3 ]}.
Proof.
  apply other_keys_ignored. intros key Hin. simpl in Hin.
  repeat (destruct Hin as [<- | Hin]; [by vm_compute|]). done.
Defined.

(** * The display slug *)

Section Slug.

Lemma rev_app_spec (s acc : string) : String.rev_app s acc = String.rev s +:+ acc.
Proof.
  unfold String.rev. revert acc. induction s as [|c s IH]; intros acc; [done|].
  simpl. rewrite (IH (String c "")), (IH (String c acc)). by rewrite app_assoc.
Qed.

Lemma rev_cons (c : ascii) (s : string) :
  String.rev (String c s) = String.rev s +:+ String c "".
Proof. unfold String.rev at 1. simpl. apply rev_app_spec. Qed.

Lemma rev_app_distr (a b : string) :
  String.rev (a +:+ b) = String.rev b +:+ String.rev a.
Proof.
  induction a as [|c a IH].
  - by rewrite app_nil_l, app_nil_r.
  - by rewrite app_cons, !rev_cons, IH, app_assoc.
Qed.

Lemma rev_involutive (s : string) : String.rev (String.rev s) = s.
Proof.
  induction s as [|c s IH]; [done|].
  by rewrite rev_cons, rev_app_distr, IH.
Qed.

Lemma str_all_rev (p : ascii -> bool) (s : string) :
  str_all p (String.rev s) = str_all p s.
Proof.
  induction s as [|c s IH]; [done|].
  rewrite rev_cons, str_all_app, IH. simpl. by rewrite andb_true_r, andb_comm.
Qed.

Lemma contains_rev (s : string) :
  Py.contains "__" (String.rev s) = true -> Py.contains "__" s = true.
Proof.
  intros (a & b & Hs)%contains_iff. apply contains_iff.
  exists (String.rev b), (String.rev a).
  rewrite <- (rev_involutive s), Hs, !rev_app_distr, app_assoc. done.
Qed.

Lemma lstrip_suffix (c : ascii) (s : string) :
  exists p, s = p +:+ lstrip c s.
Proof.
  induction s as [|a s [p IH]]; [by exists ""|]. simpl.
  destruct (Ascii.eqb a c); [|by exists ""].
  exists (String a p). by rewrite app_cons, <- IH.
Qed.

Lemma lstrip_head (c : ascii) (s : string) :
  Py.startswith (lstrip c s) (String c "") = false.
Proof.
  induction s as [|a s IH]; [done|]. simpl.
  destruct (Ascii.eqb a c) eqn:Ha; [done|]. simpl. by rewrite Ha.
Qed.

(** Stripping on the left does not reach past a character that stays. *)
Lemma lstrip_keeps_last (c d : ascii) (x : string) :
  Ascii.eqb d c = false ->
  exists u, lstrip c (x +:+ String d "") = u +:+ String d "".
Proof.
  intros Hd. induction x as [|a x IH].
  - exists "". simpl. by rewrite Hd.
  - rewrite app_cons. simpl. destruct (Ascii.eqb a c); [done|].
    by exists (String a x).
Qed.

Lemma startswith_nil (s : string) : Py.startswith s "" = true.
Proof. by destruct s. Qed.

Lemma strip_underscores_head (s : string) :
  Py.startswith (strip_underscores s) "_" = false.
Proof.
  unfold strip_underscores.
  pose proof (lstrip_head "_" s) as Hhead.
  destruct (lstrip "_" s) as [|d t]; [done|].
  simpl in Hhead. rewrite startswith_nil in Hhead.
  destruct (Ascii.eqb d "_") eqn:Hd; [done|].
  rewrite rev_cons.
  destruct (lstrip_keeps_last "_" d (String.rev t) Hd) as [u ->].
  rewrite rev_app_distr. simpl. by rewrite Hd.
Qed.

Lemma strip_underscores_last (s : string) :
  Py.startswith (String.rev (strip_underscores s)) "_" = false.
Proof. unfold strip_underscores. rewrite rev_involutive. apply lstrip_head. Qed.

Lemma contains_suffix (t p s : string) :
  Py.contains t s = true -> Py.contains t (p +:+ s) = true.
Proof. intros H. rewrite <- (app_nil_r s). by apply contains_app. Qed.

Lemma strip_underscores_contains (s : string) :
  Py.contains "__" (strip_underscores s) = true -> Py.contains "__" s = true.
Proof.
  unfold strip_underscores. intros H%contains_rev.
  destruct (lstrip_suffix "_" (String.rev (lstrip "_" s))) as [p Hp].
  apply (contains_suffix _ p) in H. rewrite <- Hp in H. apply contains_rev in H.
  destruct (lstrip_suffix "_" s) as [p' Hp']. rewrite Hp'. by apply contains_suffix.
Qed.

Lemma str_all_suffix (f : ascii -> bool) (p s : string) :
  str_all f (p +:+ s) = true -> str_all f s = true.
Proof. rewrite str_all_app. by intros [_ ?]%andb_true_iff. Qed.

Lemma strip_underscores_chars (f : ascii -> bool) (s : string) :
  str_all f s = true -> str_all f (strip_underscores s) = true.
Proof.
  intros Hs. unfold strip_underscores. rewrite str_all_rev.
  destruct (lstrip_suffix "_" (String.rev (lstrip "_" s))) as [p Hp].
  apply (str_all_suffix f p). rewrite <- Hp, str_all_rev.
  destruct (lstrip_suffix "_" s) as [p' Hp'].
  apply (str_all_suffix f p'). by rewrite <- Hp'.
Qed.

Lemma slug_char_not_underscore (c : ascii) :
  slug_char c = true -> Ascii.eqb c "_" = false.
Proof. destruct c as [[] [] [] [] [] [] [] []]; vm_compute; done. Qed.

(** What [re.sub] leaves: slug characters, no two underscores in a row,
    and no underscore first when the run has already been replaced. *)
Lemma collapse_runs_spec (s : string) (in_run : bool) :
  str_all slug_or_underscore (collapse_runs in_run s) = true
  /\ Py.contains "__" (collapse_runs in_run s) = false
  /\ (in_run = true -> Py.startswith (collapse_runs in_run s) "_" = false).
Proof.
  revert in_run. induction s as [|c s IH]; intros in_run; [by destruct in_run|].
  simpl. destruct (slug_char c) eqn:Hc.
  - destruct (IH false) as (Hall & Hno & _).
    pose proof (slug_char_not_underscore c Hc) as Hne.
    split; [|split].
    + simpl. unfold slug_or_underscore at 1. by rewrite Hc.
    + rewrite contains_unfold, Hno. simpl. by rewrite Hne.
    + intros _. simpl. by rewrite Hne.
  - destruct in_run; [apply IH|].
    destruct (IH true) as (Hall & Hno & Hhead). specialize (Hhead eq_refl).
    split; [|split; [|done]].
    + simpl. by rewrite Hall.
    + rewrite contains_unfold, Hno, orb_false_r.
      change (Py.startswith (String "_" ?x) "__") with (Py.startswith x "_").
      exact Hhead.
Qed.

Lemma str_take_prefix (n : nat) (s : string) :
  exists rest, s = Py.str_take n s +:+ rest.
Proof.
  revert s. induction n as [|n IH]; intros s; [by exists s|].
  destruct s as [|c s]; [by exists ""|].
  destruct (IH s) as [rest Hrest]. exists rest. simpl.
  by rewrite app_cons, <- Hrest.
Qed.

Lemma str_take_length (n : nat) (s : string) :
  String.length (Py.str_take n s) = Nat.min n (String.length s).
Proof.
  revert s. induction n as [|n IH]; intros s; [done|].
  destruct s as [|c s]; [done|]. simpl. by rewrite IH.
Qed.

Lemma str_take_head (n : nat) (s t : string) :
  Py.startswith s t = false -> Py.startswith (Py.str_take n s) t = false.
Proof.
  intros Hs. destruct (Py.startswith (Py.str_take n s) t) eqn:Ht; [|done].
  apply startswith_inv in Ht as [b Hb].
  destruct (str_take_prefix n s) as [rest Hrest].
  rewrite Hrest, Hb, app_assoc, startswith_app in Hs. done.
Qed.

End Slug.

(** X13: the slug of a question has at most 40 characters, all of them
    a-z, 0-9 or underscores; it does not begin with an underscore and has
    no two underscores in a row; it ends with an underscore only when it
    was cut at 40 characters. *)
Theorem slug_shape (question : string) :
  String.length (make_slug question) <= 40
  /\ str_all slug_or_underscore (make_slug question) = true
  /\ Py.startswith (make_slug question) "_" = false
  /\ Py.contains "__" (make_slug question) = false
  /\ (Py.startswith (String.rev (make_slug question)) "_" = true ->
      String.length (make_slug question) = 40).
Proof.
  unfold make_slug.
  destruct (collapse_runs_spec question false) as (Hall & Hno & _).
  set (stripped := strip_underscores (collapse_runs false question)).
  destruct (str_take_prefix 40 stripped) as [rest Hrest].
  repeat split.
  - rewrite str_take_length. lia.
  - apply (strip_underscores_chars slug_or_underscore) in Hall. fold stripped in Hall.
    rewrite Hrest, str_all_app in Hall. by apply andb_true_iff in Hall as [? _].
  - apply str_take_head, strip_underscores_head.
  - destruct (Py.contains "__" (Py.str_take 40 stripped)) eqn:Hc; [|done].
    rewrite <- Hno. symmetry. apply strip_underscores_contains. fold stripped.
    rewrite Hrest, <- (app_nil_l (_ +:+ rest)). by apply contains_app.
  - intros Hlast. rewrite str_take_length.
    destruct (Nat.le_gt_cases 40 (String.length stripped)) as [|Hshort]; [lia|].
    assert (Py.str_take 40 stripped = stripped) as Hsame.
    { destruct rest as [|c rest]; [by rewrite app_nil_r in Hrest|].
      apply (f_equal String.length) in Hrest.
      rewrite app_length, str_take_length in Hrest.
      cbn [String.length] in Hrest. lia. }
    rewrite Hsame in Hlast. unfold stripped in Hlast.
    by rewrite strip_underscores_last in Hlast.
Qed.

Lemma slug_shape_witness :
  String.length (make_slug "aaaaaaaaaaaaaaaaaaaaaaaaaaaaaaaaaaaaaaa b") = 40.
Proof.
  apply (slug_shape "aaaaaaaaaaaaaaaaaaaaaaaaaaaaaaaaaaaaaaa b"). reflexivity.
Defined.

(** * The best-match scan of the similarity tests *)

Section BestMatch.

Context {glyph meta : Type} (similarity : glyph -> glyph -> Q) (customer : glyph).

Lemma best_match_from_spec (patterns : list (glyph * meta))
    (best_meta : option meta) (best_score : Q) :
  let result := best_match_from similarity customer patterns best_meta best_score in
  (best_score <= result.2)%Q
  /\ Forall (fun p => (similarity customer p.1 <= result.2)%Q) patterns
  /\ ((result = (best_meta, best_score)
       /\ Forall (fun p => (similarity customer p.1 <= best_score)%Q) patterns)
      \/ exists before g m after,
           patterns = before ++ (g, m) :: after
           /\ result = (Some m, similarity customer g)
           /\ (best_score < similarity customer g)%Q
           /\ Forall (fun p => (similarity customer p.1 < similarity customer g)%Q)
                before).
Proof.
  revert best_meta best_score.
  induction patterns as [|[g m] rest IH]; intros best_meta best_score; cbv zeta.
  - split; [apply Qle_refl|]. split; [constructor|]. left. by split.
  - cbn [best_match_from].
    destruct (Qlt_le_dec best_score (similarity customer g)) as [Hlt|Hle].
    + destruct (IH (Some m) (similarity customer g)) as (Hge & Hall & Hcase).
      split; [by apply Qlt_le_weak, (Qlt_le_trans _ (similarity customer g))|].
      split; [by constructor|]. right.
      destruct Hcase as [[Hres Hrest] | (before & g' & m' & after & -> & Hres & Hlt' & Hbefore)].
      * exists [], g, m, rest. repeat split; try done.
      * exists ((g, m) :: before), g', m', after. repeat split; try done.
        -- by apply (Qlt_trans _ (similarity customer g)).
        -- by constructor.
    + destruct (IH best_meta best_score) as (Hge & Hall & Hcase).
      split; [done|].
      split; [constructor; [by apply (Qle_trans _ best_score)|done]|].
      destruct Hcase as [[Hres Hrest] | (before & g' & m' & after & -> & Hres & Hlt' & Hbefore)].
      * left. split; [done|]. by constructor.
      * right. exists ((g, m) :: before), g', m', after. repeat split; try done.
        constructor; [|done]. by apply (Qle_lt_trans _ best_score).
Qed.

End BestMatch.

(** X14: [_find_best_match] returns a score that no pattern exceeds.
    Either no pattern scores above -1, and it returns no metadata and the
    score -1 (so for an empty pattern list); or it returns the metadata and
    the score of the first pattern with the highest score, which is above
    -1 and strictly above the score of every pattern before it. *)
Theorem find_best_match_spec {glyph meta : Type} (customer : glyph)
    (patterns : list (glyph * meta)) (similarity : glyph -> glyph -> Q) :
  let result := _find_best_match customer patterns similarity in
  Forall (fun p => (similarity customer p.1 <= result.2)%Q) patterns
  /\ ((result = (None, (-1 # 1)%Q)
       /\ Forall (fun p => (similarity customer p.1 <= -1 # 1)%Q) patterns)
      \/ exists before g m after,
           patterns = before ++ (g, m) :: after
           /\ result = (Some m, similarity customer g)
           /\ (-1 # 1 < similarity customer g)%Q
           /\ Forall (fun p => (similarity customer p.1 < similarity customer g)%Q)
                before).
Proof.
  cbv zeta. unfold _find_best_match.
  destruct (best_match_from_spec similarity customer patterns None (-1 # 1)%Q)
    as (_ & Hall & Hcase).
  split; [exact Hall|exact Hcase].
Qed.

(** * Keywords of joined texts, and records of attribute mappings *)

(** X15: when two texts are put together with a white-space character
    between them, the words of the keywords are those of the first text's
    keywords followed by those of the second's. *)
Theorem keywords_of_joined_texts (a b : string) (c : ascii) :
  Py.isspace c = true ->
  returns (encode_query a) (fun ra =>
    returns (encode_query b) (fun rb =>
      returns (encode_query (a +:+ String c b)) (fun r =>
        exists ka kb k,
          keywords (attributes ra) = PStr ka
          /\ keywords (attributes rb) = PStr kb
          /\ keywords (attributes r) = PStr k
          /\ Py.split k = Py.split ka ++ Py.split kb))).
Proof.
  intros Hc.
  destruct (encode_query_ok a) as (ida & _ & _ & ->).
  destruct (encode_query_ok b) as (idb & _ & _ & ->).
  destruct (encode_query_ok (a +:+ String c b)) as (id & _ & _ & ->).
  cbn [returns attributes keywords]. eexists _, _, _.
  split; [reflexivity|]. split; [reflexivity|]. split; [reflexivity|].
  assert (forall q, Forall (fun w => is_token w = true)
                      (filter (fun w => w ∉ _STOP_WORDS) (tokens q))) as Htok.
  { intros q. apply Forall_forall. intros x [_ Hx]%list_elem_of_filter.
    revert x Hx. apply Forall_forall, tokens_are_tokens. }
  rewrite !split_join by apply Htok.
  by rewrite tokens_space, filter_app.
Qed.

Lemma keywords_of_joined_texts_witness :
  returns (encode_query ("how do I find" +:+ String " " "the customers at risk"))
    (fun r => exists k,
       keywords (attributes r) = PStr k
       /\ Py.split k = Py.split "find" ++ Py.split "customers at risk").
Proof.
  pose proof (keywords_of_joined_texts "how do I find" "the customers at risk" " "
                eq_refl) as H.
  apply returns_inv in H as (ra & Ea & H). apply returns_inv in H as (rb & Eb & H).
  revert H. apply returns_impl. intros r (ka & kb & k & Ha & Hb & Hk & H).
  exists k. split; [exact Hk|].
  vm_compute in Ea, Eb. injection Ea as <-. injection Eb as <-.
  cbn [attributes keywords] in Ha, Hb. injection Ha as <-. injection Hb as <-.
  exact H.
Defined.

(** X16: an entry made of a complete attribute mapping whose keywords are
    a str comes back unchanged as the attributes of its record: this holds
    for the attributes of every query. *)
Theorem attributes_round_trip (a : Attributes) :
  is_str (keywords a) = true ->
  returns (entry_to_record (as_entry a)) (fun r => record_attributes r = a)
  /\ forall query,
       returns (encode_query query) (fun q =>
         returns (entry_to_record (as_entry (attributes q))) (fun r =>
           record_attributes r = attributes q)).
Proof.
  assert (forall a', is_str (keywords a') = true ->
    returns (entry_to_record (as_entry a')) (fun r => record_attributes r = a')) as Hone.
  { intros [cid risk driver band kw lg sc df fa] Hkw. simpl in Hkw.
    destruct kw as [| | |s| |]; try discriminate Hkw.
    unfold entry_to_record.
    change (get (as_entry _) "question" (PStr "")) with (PStr "").
    change (get (as_entry _) "keywords" (PList [])) with (PStr s).
    cbn [method_lower keywords_text mbind result_bind mret result_ret returns
         record_attributes].
    reflexivity. }
  intros Hkw. split; [by apply Hone|].
  intros query. destruct (encode_query_ok query) as (id & _ & _ & Hq).
  rewrite Hq. cbn [returns]. by apply Hone.
Qed.

Lemma attributes_round_trip_witness :
  returns (encode_query "zero logins") (fun q =>
    returns (entry_to_record (as_entry (attributes q))) (fun r =>
      record_attributes r = attributes q)).
Proof.
  apply (attributes_round_trip {|
    customer_id := PStr ""; risk_level := PStr "high";
    churn_driver := PStr "low_usage"; usage_band := PStr "inactive";
    keywords := PStr "zero logins"; logins := PInt 50; support_cases := PInt 2;
    defects := PInt 1; feature_adoption := PInt 50 |}).
  reflexivity.
Defined.
